(** * xknx: the KNX 6-octet colour xyY datapoint (DPT 242.600)

    A shallow embedding of [xknx/dpt/dpt_color.py]: the structured value
    [XYYColor], its construction from a mapping ([from_dict]), and the codec
    [DPTColorXYY] ([from_knx], [to_knx]).

    Python [float]s are IEEE binary64 numbers; they are embedded as Rocq's
    primitive floats, whose operations are the same correctly rounded
    binary64 operations.  Python [int]s are [Z].  Exceptions are results of
    an error monad. *)

From Stdlib Require Import ZArith List Bool String Lia.
From Stdlib Require Import PrimFloat FloatOps SpecFloat FloatAxioms Uint63.
Import ListNotations.
Local Open Scope Z_scope.

(** ** Exceptions and the error monad *)

Inductive exn : Set :=
| ConversionError
| ValueError
| TypeError
| OverflowError
| ZeroDivisionError
| IndexError.

Inductive result (A : Type) : Type :=
| Ok (a : A)
| Raise (e : exn).

Arguments Ok {A} a.
Arguments Raise {A} e.

Definition bind {A B : Type} (m : result A) (k : A -> result B) : result B :=
  match m with
  | Ok a => k a
  | Raise e => Raise e
  end.

Notation "x <- m ;; k" := (bind m (fun x => k))
  (at level 61, m at next level, right associativity).

(** [try: body except (ValueError, TypeError): raise ConversionError(...)]:
    the two caught exceptions are re-raised as [ConversionError]; any other
    exception propagates unchanged. *)
Definition except_value_type_error {A : Type} (body : result A) : result A :=
  match body with
  | Raise ValueError | Raise TypeError => Raise ConversionError
  | r => r
  end.

(** ** Python numbers

    The values that reach this module: [None], an [int], a [float]. *)

Inductive pyval : Set :=
| PyNone
| PyInt (z : Z)
| PyFloat (f : float).

Module PyNum.

(** The integer nearest to [t / 2^n], ties to the even integer ([0 < n]),
    with the quotient and the remainder taken by shifting and masking. *)
Definition round_shift (t n : Z) : Z :=
  let q := Z.shiftr t n in
  let r := Z.land t (Z.ones n) in
  match r ?= Z.shiftl 1 (n - 1) with
  | Lt => q
  | Gt => q + 1
  | Eq => if Z.even q then q else q + 1
  end.

(** The same rounding written with division: what [round_shift] computes. *)
Definition round_half_even (t d : Z) : Z :=
  let q := t / d in
  let r := t mod d in
  match 2 * r ?= d with
  | Lt => q
  | Gt => q + 1
  | Eq => if Z.even q then q else q + 1
  end.

(** The integer nearest to [m * 2^e], ties to even. *)
Definition round_dyadic (m e : Z) : Z :=
  if 0 <=? e then Z.shiftl m e else round_shift m (- e).

(** [float(z)] for an int: exact up to [2^53], correctly rounded beyond,
    [OverflowError] when the int is too large for a double. *)
Definition float_of_int (z : Z) : result float :=
  if Z.abs z <=? 2 ^ 53 then
    let f := of_uint63 (of_Z (Z.abs z)) in
    Ok (if z <? 0 then (- f)%float else f)
  else
    let f := SF2Prim (binary_normalize prec emax z 0 false) in
    if is_infinity f then Raise OverflowError else Ok f.

(** The double of a small int literal of the source ([0], [1], [255],
    [0xFFFF]). *)
Definition float_lit (z : Z) : float := of_uint63 (of_Z z).

(** [a / b] on ints (true division): the double nearest to the quotient.
    Both conversions are exact for operands up to [2^53], which covers every
    quotient the codec forms ([0 <= a <= 0xFFFF], [b = 0xFFFF]). *)
Definition int_truediv (a b : Z) : result float :=
  if b =? 0 then Raise ZeroDivisionError
  else
    fa <- float_of_int a ;;
    fb <- float_of_int b ;;
    Ok (fa / fb)%float.

(** [round(f)] on a float: the nearest int, ties to even; [ValueError] on
    NaN and [OverflowError] on an infinity. *)
Definition float_round (f : float) : result Z :=
  match Prim2SF f with
  | S754_nan => Raise ValueError
  | S754_infinity _ => Raise OverflowError
  | S754_zero _ => Ok 0
  | S754_finite s m e => Ok (cond_Zopp s (round_dyadic (Zpos m) e))
  end.

(** [int(f)] on a float: truncation toward zero. *)
Definition float_trunc (f : float) : result Z :=
  match Prim2SF f with
  | S754_nan => Raise ValueError
  | S754_infinity _ => Raise OverflowError
  | S754_zero _ => Ok 0
  | S754_finite s m e => Ok (cond_Zopp s (Z.shiftl (Zpos m) e))
  end.

(** [round(f, ndigits)] on a float, [0 <= ndigits <= 22]: the exact value of
    [f] is rounded to the nearest multiple [k * 10^-ndigits] (ties to even),
    and the result is the double nearest to that decimal.  NaN, infinities
    and zeros round to themselves.  When [k] reaches [2^53] doubles are
    spaced wider than [10^-ndigits] and [f] is its own rounding. *)
Definition float_round_ndigits (f : float) (ndigits : Z) : float :=
  match Prim2SF f with
  | S754_finite s m e =>
      let k := round_dyadic (Zpos m * 10 ^ ndigits) e in
      if 2 ^ 53 <=? k then f
      else
        let r := (of_uint63 (of_Z k) / of_uint63 (of_Z (10 ^ ndigits)))%float in
        if s then (- r)%float else r
  | _ => f
  end.

(** The chained comparison [lo <= v <= hi] against two int literals. *)
Definition py_between (lo : Z) (v : pyval) (hi : Z) : result bool :=
  match v with
  | PyNone => Raise TypeError
  | PyInt z => Ok ((lo <=? z) && (z <=? hi))
  | PyFloat f => Ok ((float_lit lo <=? f)%float && (f <=? float_lit hi)%float)
  end.

(** [v * c] for an int literal [c]. *)
Definition py_mul_lit (v : pyval) (c : Z) : result pyval :=
  match v with
  | PyNone => Raise TypeError
  | PyInt z => Ok (PyInt (z * c))
  | PyFloat f => Ok (PyFloat (f * float_lit c)%float)
  end.

(** [round(v)] with one argument: an int. *)
Definition py_round (v : pyval) : result Z :=
  match v with
  | PyNone => Raise TypeError
  | PyInt z => Ok z
  | PyFloat f => float_round f
  end.

(** [int(v)]. *)
Definition py_int (v : pyval) : result Z :=
  match v with
  | PyNone => Raise TypeError
  | PyInt z => Ok z
  | PyFloat f => float_trunc f
  end.

(** [float(v)]. *)
Definition py_float (v : pyval) : result float :=
  match v with
  | PyNone => Raise TypeError
  | PyInt z => float_of_int z
  | PyFloat f => Ok f
  end.

Definition is_not_none (v : pyval) : bool :=
  match v with PyNone => false | _ => true end.

End PyNum.

Import PyNum.

(** ** Payloads *)

(** Modelled from the spec: [DPTArray] and [DPTBinary] are declared in
    [xknx/dpt/payload.py], which is not among the sources.  The spec (6)
    names the two payload kinds, a byte array and a single-bit payload; the
    tests build them as [DPTArray((0xFF, ...))], a tuple of ints with one int
    per octet, and [DPTBinary(1)]. *)
Inductive payload : Set :=
| DPTArray (value : list Z)
| DPTBinary (value : Z).

(** An octet. *)
Definition is_byte (z : Z) : Prop := 0 <= z <= 255.

(** [raw[i]] on a tuple. *)
Definition getitem (raw : list Z) (i : nat) : result Z :=
  match nth_error raw i with
  | Some z => Ok z
  | None => Raise IndexError
  end.

(** ** The mapping handed to [from_dict]

    A [Mapping[str, Any]] as its items; [data.get(key)] is the value of the
    first item with that key and [None] when there is none. *)

Definition mapping : Set := list (string * pyval).

Fixpoint get (data : mapping) (key : string) : pyval :=
  match data with
  | [] => PyNone
  | (k, v) :: rest => if String.eqb k key then v else get rest key
  end.

(** ** [XYYColor]: an optional pair of axes and an optional brightness.
    [brightness] is whatever object the caller stored; [PyNone] is absence. *)

Record XYYColor : Set := mkXYYColor {
  color : option (pyval * pyval);
  brightness : pyval
}.

Module XYYColorM.

(** [XYYColor.from_dict]: the colour is built only when both axes are
    present; otherwise it stays [None]. *)
Definition from_dict (data : mapping) : result XYYColor :=
  c <- (if is_not_none (get data "x_axis") && is_not_none (get data "y_axis")
        then
          except_value_type_error
            (x_axis <- py_float (get data "x_axis") ;;
             y_axis <- py_float (get data "y_axis") ;;
             x_ok <- py_between 0 (PyFloat x_axis) 1 ;;
             if negb x_ok then Raise ValueError
             else
               y_ok <- py_between 0 (PyFloat y_axis) 1 ;;
               if negb y_ok then Raise ValueError
               else Ok (Some (PyFloat x_axis, PyFloat y_axis)))
        else Ok None) ;;
  Ok (mkXYYColor c (get data "brightness")).

(** [XYYColor.to_dict]. *)
Definition to_dict (v : XYYColor) : mapping :=
  [ ("x_axis"%string, match color v with Some (x, _) => x | None => PyNone end);
    ("y_axis"%string, match color v with Some (_, y) => y | None => PyNone end);
    ("brightness"%string, brightness v) ].

End XYYColorM.

(** ** [DPTColorXYY] *)

Module DPTColorXYY.

Definition payload_length : nat := 6.

(** Modelled from the spec: [DPTBase.validate_payload] is inherited from
    [xknx/dpt/dpt.py], which is not among the sources.  The spec (4.2):
    decode must first validate that the payload's length equals the declared
    fixed length, a mismatched length fails with a conversion error, and a
    payload of the wrong kind (a single-bit value) is a structural mismatch. *)
Definition validate_payload (p : payload) : result (list Z) :=
  match p with
  | DPTArray value =>
      if Nat.eqb (List.length value) payload_length then Ok value
      else Raise ConversionError
  | DPTBinary _ => Raise ConversionError
  end.

(** [round(axis_int / 0xFFFF, 5)] *)
Definition axis_from_knx (axis_int : Z) : result pyval :=
  q <- int_truediv axis_int 0xFFFF ;;
  Ok (PyFloat (float_round_ndigits q 5)).

(** [DPTColorXYY.from_knx] *)
Definition from_knx (p : payload) : result XYYColor :=
  raw <- validate_payload p ;;
  r0 <- getitem raw 0 ;;
  r1 <- getitem raw 1 ;;
  let x_axis_int := Z.lor (Z.shiftl r0 8) r1 in
  r2 <- getitem raw 2 ;;
  r3 <- getitem raw 3 ;;
  let y_axis_int := Z.lor (Z.shiftl r2 8) r3 in
  brightness <- getitem raw 4 ;;
  r5 <- getitem raw 5 ;;
  let color_valid := Z.land (Z.shiftr r5 1) 1 in
  let brightness_valid := Z.land r5 1 in
  c <- (if negb (color_valid =? 0) then
          x <- axis_from_knx x_axis_int ;;
          y <- axis_from_knx y_axis_int ;;
          Ok (Some (x, y))
        else Ok None) ;;
  Ok (mkXYYColor c
        (if negb (brightness_valid =? 0) then PyInt brightness else PyNone)).

(** [round(axis * 0xFFFF)] *)
Definition axis_to_knx (axis : pyval) : result Z :=
  v <- py_mul_lit axis 0xFFFF ;;
  py_round v.

(** The generator loop of [to_knx]: the first axis outside [0, 1] raises
    [ValueError]. *)
Definition check_axis (axis : pyval) : result unit :=
  ok <- py_between 0 axis 1 ;;
  if negb ok then Raise ValueError else Ok tt.

(** The colour block of [to_knx]: [(color_valid, x_axis, y_axis)]. *)
Definition color_to_knx (c : option (pyval * pyval)) : result (bool * Z * Z) :=
  match c with
  | Some (x, y) =>
      _ <- check_axis x ;;
      _ <- check_axis y ;;
      x_axis <- axis_to_knx x ;;
      y_axis <- axis_to_knx y ;;
      Ok (true, x_axis, y_axis)
  | None => Ok (false, 0, 0)
  end.

(** The brightness block of [to_knx]: [(brightness_valid, brightness)]. *)
Definition brightness_to_knx (b : pyval) : result (bool * Z) :=
  if is_not_none b then
    ok <- py_between 0 b 255 ;;
    if negb ok then Raise ValueError
    else
      n <- py_int b ;;
      Ok (true, n)
  else Ok (false, 0).

(** [DPTColorXYY.to_knx] *)
Definition to_knx (value : XYYColor) : result payload :=
  except_value_type_error
    (cxy <- color_to_knx (color value) ;;
     let '(color_valid, x_axis, y_axis) := cxy in
     bb <- brightness_to_knx (brightness value) ;;
     let '(brightness_valid, b) := bb in
     Ok (DPTArray
           [ Z.shiftr x_axis 8;
             Z.land x_axis 0xFF;
             Z.shiftr y_axis 8;
             Z.land y_axis 0xFF;
             b;
             Z.lor (Z.shiftl (Z.b2z color_valid) 1) (Z.b2z brightness_valid) ])).

End DPTColorXYY.

(** ** The remote value bridge *)

Module RemoteValue.

(** Modelled from the spec: the addressing identifier (6) is an opaque value
    with equality, built from a string such as ["1/2/3"]. *)
Definition GroupAddress : Set := string.

(** Modelled from the spec: the commands a bus message carries (6); the
    write command carries a payload. *)
Inductive apci : Set :=
| GroupValueRead
| GroupValueWrite (value : payload)
| GroupValueResponse (value : payload).

(** Modelled from the spec: a bus message is a pair of a destination and a
    payload-carrying command (6). *)
Record Telegram : Set := mkTelegram {
  destination_address : GroupAddress;
  telegram_payload : apci
}.

(** Modelled from the spec: the state of the bridge (3) is its destination
    and the cached value, unknown ([None]) until a message has been applied. *)
Record RemoteValueColorXYY : Set := mkRemoteValue {
  group_address : GroupAddress;
  value : option XYYColor
}.

(** Modelled from the spec: the declared payload kind of this datapoint type
    is the byte array ([payload_type = DPTArray]). *)
Definition is_payload_kind (p : payload) : bool :=
  match p with DPTArray _ => true | DPTBinary _ => false end.

(** Modelled from the spec: [RemoteValue.process] lives in
    [xknx/remote_value/remote_value.py], which is not among the sources.
    The spec (4.3): process returns [false] without mutating the cache if the
    message is not addressed to the destination, is not a write-type message,
    or carries a payload whose kind is not the type's declared kind;
    otherwise it decodes the payload, on success overwrites the cache and
    returns [true], and on any decode failure leaves the cache untouched and
    returns [false]: no failure is raised.  The result is the returned boolean
    and the bridge after the call. *)
Definition process (rv : RemoteValueColorXYY) (t : Telegram)
  : bool * RemoteValueColorXYY :=
  if negb (String.eqb (destination_address t) (group_address rv)) then (false, rv)
  else
    match telegram_payload t with
    | GroupValueWrite p =>
        if negb (is_payload_kind p) then (false, rv)
        else
          match DPTColorXYY.from_knx p with
          | Ok v => (true, mkRemoteValue (group_address rv) (Some v))
          | Raise _ => (false, rv)
          end
    | _ => (false, rv)
    end.

End RemoteValue.

(** ** Deciding a property of every 16-bit value by evaluation *)

(** [p i && p (i+1) && ...], [fuel] values from [i] on. *)
Fixpoint forall_from (fuel : nat) (i : Z) (p : Z -> bool) : bool :=
  match fuel with
  | O => true
  | S k => p i && forall_from k (i + 1) p
  end.

Definition result_is (r : result Z) (i : Z) : bool :=
  match r with Ok j => j =? i | Raise _ => false end.

Definition unit_interval (f : float) : bool :=
  ((float_lit 0 <=? f)%float && (f <=? float_lit 1)%float)%bool.

(** What the codec does with the fraction [i / 0xFFFF]: the fraction and its
    5-digit rounding both lie in [0, 1] and both encode back to [i]. *)
Definition fraction_check (i : Z) : bool :=
  match int_truediv i 0xFFFF with
  | Ok x =>
      let d := float_round_ndigits x 5 in
      unit_interval x
      && result_is (DPTColorXYY.axis_to_knx (PyFloat x)) i
      && unit_interval d
      && result_is (DPTColorXYY.axis_to_knx (PyFloat d)) i
  | Raise _ => false
  end.

(** An axis value at 16-bit fixed-point resolution: the Python float
    [i / 0xFFFF] of some 16-bit [i]. *)
Definition fixed16 (x : float) : Prop :=
  exists i, 0 <= i <= 0xFFFF /\ int_truediv i 0xFFFF = Ok x.

(** The structural test of decode: a byte array of the declared length. *)
Definition structurally_valid (p : payload) : bool :=
  match p with
  | DPTArray raw => Nat.eqb (List.length raw) DPTColorXYY.payload_length
  | DPTBinary _ => false
  end.

(** The content of a byte array is octets. *)
Definition octets (p : payload) : Prop :=
  match p with
  | DPTArray raw => Forall is_byte raw
  | DPTBinary _ => True
  end.

(** ** What [to_knx] accepts, and the normal form of a payload *)

(** The range test [lo <= v <= hi] passed: it returned [True]. *)
Definition in_range (lo : Z) (v : pyval) (hi : Z) : bool :=
  match py_between lo v hi with
  | Ok true => true
  | _ => false
  end.

(** A value whose present fields pass the range tests of [to_knx]: the
    colour is absent or has both axes in [0, 1], the brightness is absent or
    in [0, 255]. *)
Definition encodable (v : XYYColor) : bool :=
  match color v with
  | None => true
  | Some (x, y) => in_range 0 x 1 && in_range 0 y 1
  end
  && (negb (is_not_none (brightness v)) || in_range 0 (brightness v) 255).

(** A colour as [from_dict] and [from_knx] build it: absent, or a pair of
    floats of [0, 1]. *)
Definition float_color (c : option (pyval * pyval)) : bool :=
  match c with
  | None => true
  | Some (PyFloat x, PyFloat y) => unit_interval x && unit_interval y
  | Some _ => false
  end.

(** Six raw octets with the fields that the flag octet marks invalid set to
    zero and the reserved bits of the flag octet cleared. *)
Definition canonical (raw : list Z) : list Z :=
  match raw with
  | [r0; r1; r2; r3; r4; r5] =>
      let c := Z.testbit r5 1 in
      let b := Z.testbit r5 0 in
      [ if c then r0 else 0; if c then r1 else 0;
        if c then r2 else 0; if c then r3 else 0;
        if b then r4 else 0; Z.land r5 3 ]
  | _ => raw
  end.

(** The decoded fraction of [i] is below the decoded fraction of [i + 1]. *)
Definition decode_step_check (i : Z) : bool :=
  match DPTColorXYY.axis_from_knx i, DPTColorXYY.axis_from_knx (i + 1) with
  | Ok (PyFloat a), Ok (PyFloat b) => (a <? b)%float
  | _, _ => false
  end.

(** Right shifts with round and sticky bits: the kept mantissa, plus one
    when a bit was lost, stays below an integer bound that halves with
    each shift. *)
Definition shr_below (r : shr_record) (B : Z) : Prop :=
  0 <= shr_m r /\ shr_m r + Z.b2z (shr_r r || shr_s r) <= B.


(** * Properties *)

(** ** Octets and 16-bit words *)

Section Bits.

Lemma land_1_testbit (x : Z) : Z.land x 1 = Z.b2z (Z.testbit x 0).
Proof.
  change 1 with (Z.ones 1).
  rewrite Z.land_ones by lia.
  change (2 ^ 1) with 2.
  symmetry; apply Z.bit0_mod.
Qed.

Lemma flag_bit (r n : Z) :
  0 <= n -> negb (Z.land (Z.shiftr r n) 1 =? 0) = Z.testbit r n.
Proof.
  intros Hn.
  rewrite land_1_testbit, Z.shiftr_spec by lia.
  rewrite Z.add_0_l.
  destruct (Z.testbit r n); reflexivity.
Qed.

Lemma flag_bit0 (r : Z) : negb (Z.land r 1 =? 0) = Z.testbit r 0.
Proof.
  rewrite land_1_testbit.
  destruct (Z.testbit r 0); reflexivity.
Qed.

Lemma testbit_land_3 (r n : Z) :
  0 <= n <= 1 -> Z.testbit (Z.land r 3) n = Z.testbit r n.
Proof.
  intros Hn.
  rewrite Z.land_spec.
  assert (E : n = 0 \/ n = 1) by lia.
  destruct E as [-> | ->]; cbn; apply andb_true_r.
Qed.

Lemma lt_pow2_log2 (x n : Z) : 0 <= x -> 0 < n -> Z.log2 x < n -> x < 2 ^ n.
Proof.
  intros Hx Hn Hl.
  destruct (Z.eq_dec x 0) as [-> | Hx0].
  - apply Z.pow_pos_nonneg; lia.
  - apply Z.log2_lt_pow2; lia.
Qed.

Lemma log2_lt_of_lt_pow2 (x n : Z) : 0 <= x -> 0 < n -> x < 2 ^ n -> Z.log2 x < n.
Proof.
  intros Hx Hn Hl.
  destruct (Z.eq_dec x 0) as [-> | Hx0].
  - cbn; lia.
  - apply Z.log2_lt_pow2; lia.
Qed.

(** Two octets joined big-endian form a 16-bit value. *)
Lemma join16_range (hi lo : Z) :
  is_byte hi -> is_byte lo -> 0 <= Z.lor (Z.shiftl hi 8) lo <= 0xFFFF.
Proof.
  unfold is_byte; intros Hhi Hlo.
  assert (Hs : 0 <= Z.shiftl hi 8 < 2 ^ 16).
  { rewrite Z.shiftl_mul_pow2 by lia. change (2 ^ 8) with 256.
    change (2 ^ 16) with 65536. lia. }
  assert (H0 : 0 <= Z.lor (Z.shiftl hi 8) lo) by (apply Z.lor_nonneg; lia).
  split; [exact H0 |].
  enough (Z.lor (Z.shiftl hi 8) lo < 2 ^ 16) by (change (2 ^ 16) with 65536 in *; lia).
  apply lt_pow2_log2; [exact H0 | lia |].
  rewrite Z.log2_lor by lia.
  apply Z.max_lub_lt; apply log2_lt_of_lt_pow2; lia.
Qed.

(** A 16-bit value split into its octets and joined again. *)
Lemma split16_join (n : Z) :
  0 <= n <= 0xFFFF ->
  is_byte (Z.shiftr n 8) /\ is_byte (Z.land n 0xFF) /\
  Z.lor (Z.shiftl (Z.shiftr n 8) 8) (Z.land n 0xFF) = n.
Proof.
  intros Hn.
  assert (Hq : 0 <= n / 256 <= 255).
  { split; [apply Z.div_pos; lia |].
    enough (n / 256 < 256) by lia.
    apply Z.div_lt_upper_bound; lia. }
  assert (Hr : 0 <= n mod 256 < 256) by (apply Z.mod_pos_bound; lia).
  assert (Es : Z.shiftr n 8 = n / 256) by (apply Z.shiftr_div_pow2; lia).
  assert (El : Z.land n 0xFF = n mod 256) by (apply (Z.land_ones n 8); lia).
  split; [unfold is_byte; lia |].
  split; [unfold is_byte; lia |].
  apply Z.bits_inj'; intros k Hk.
  rewrite Z.lor_spec, Z.land_spec.
  change 0xFF with (Z.ones 8).
  destruct (Z.ltb_spec k 8) as [Hlt | Hge].
  - rewrite Z.shiftl_spec_low by lia.
    rewrite Z.ones_spec_low by lia.
    cbn. apply andb_true_r.
  - rewrite Z.shiftl_spec by lia.
    rewrite Z.shiftr_spec by lia.
    rewrite Z.ones_spec_high by lia.
    rewrite andb_false_r, orb_false_r.
    f_equal; lia.
Qed.

End Bits.

(** ** Binary64 facts *)

Section FloatFacts.

Lemma digits2_pos_bounds (m : positive) :
  2 ^ (Zpos (digits2_pos m) - 1) <= Zpos m < 2 ^ Zpos (digits2_pos m).
Proof.
  induction m as [p IH | p IH |]; cbn [digits2_pos].
  - rewrite Pos2Z.inj_succ.
    replace (Z.succ (Zpos (digits2_pos p)) - 1)
      with (Z.succ (Zpos (digits2_pos p) - 1)) by lia.
    rewrite !Z.pow_succ_r by lia. lia.
  - rewrite Pos2Z.inj_succ.
    replace (Z.succ (Zpos (digits2_pos p)) - 1)
      with (Z.succ (Zpos (digits2_pos p) - 1)) by lia.
    rewrite !Z.pow_succ_r by lia. lia.
  - cbn. lia.
Qed.

Lemma digits2_pos_le (m : positive) (k : Z) :
  0 <= k -> Zpos m < 2 ^ k -> Zpos (digits2_pos m) <= k.
Proof.
  intros Hk Hm.
  destruct (digits2_pos_bounds m) as [Hlo _].
  assert (H : 2 ^ (Zpos (digits2_pos m) - 1) < 2 ^ k) by lia.
  apply Z.pow_lt_mono_r_iff in H; lia.
Qed.

Lemma valid_mantissa (s : bool) (m : positive) (e : Z) :
  valid_binary (S754_finite s m e) = true -> Zpos m < 2 ^ 53.
Proof.
  unfold SpecFloat.valid_binary, bounded, canonical_mantissa, fexp.
  intros H. apply andb_prop in H; destruct H as [H _].
  apply Z.eqb_eq in H.
  destruct (digits2_pos_bounds m) as [_ Hhi].
  assert (Hd : Zpos (digits2_pos m) <= 53) by (unfold prec in H; lia).
  eapply Z.lt_le_trans; [exact Hhi |].
  apply Z.pow_le_mono_r; lia.
Qed.

(** A float between [0] and a positive literal: a zero, or a positive finite
    float not above the literal. *)
Lemma between_cases (f : float) (hi : Z) (M : positive) (E : Z) :
  Prim2SF (float_lit hi) = S754_finite false M E ->
  ((float_lit 0 <=? f)%float && (f <=? float_lit hi)%float)%bool = true ->
  (exists s, Prim2SF f = S754_zero s) \/
  (exists m e, Prim2SF f = S754_finite false m e /\ Zpos m < 2 ^ 53 /\
               (e < E \/ (e = E /\ Zpos m <= Zpos M))).
Proof.
  intros Hhi H. apply andb_prop in H; destruct H as [H0 H1].
  rewrite FloatAxioms.leb_spec in H0, H1. rewrite Hhi in H1.
  change (Prim2SF (float_lit 0)) with (S754_zero false) in H0.
  pose proof (Prim2SF_valid f) as Hv.
  destruct (Prim2SF f) as [s | s | | s m e].
  - left; exists s; reflexivity.
  - destruct s; discriminate.
  - discriminate.
  - right. destruct s; [discriminate |].
    exists m, e. split; [reflexivity |].
    split; [exact (valid_mantissa _ _ _ Hv) |].
    unfold SFleb, SFcompare in H1.
    destruct (Z.compare_spec e E) as [Heq | Hlt | Hgt].
    + right. split; [exact Heq |].
      change (Pos.compare_cont Eq m M) with (Pos.compare m M) in H1.
      destruct (Pos.compare_spec m M); first [lia | discriminate].
    + left; exact Hlt.
    + discriminate.
Qed.


Lemma shr_1_below (r : shr_record) (B : Z) :
  shr_below r (2 * B) -> shr_below (shr_1 r) B.
Proof.
  destruct r as [m r s]. unfold shr_below; cbn [shr_m shr_r shr_s].
  intros [H0 H].
  destruct m as [| [p | p |] | p]; cbn [shr_1 shr_m shr_r shr_s]; try lia;
    destruct r, s; cbn [orb Z.b2z] in *; lia.
Qed.

Lemma iter_shr_below (p : positive) :
  forall r B, shr_below r (B * 2 ^ Zpos p) ->
              shr_below (iter_pos shr_1 p r) B.
Proof.
  induction p as [p IH | p IH |]; intros r B H; cbn [iter_pos].
  - apply IH, IH, shr_1_below.
    replace (2 * (B * 2 ^ Zpos p * 2 ^ Zpos p)) with (B * 2 ^ Zpos p~1);
      [exact H |].
    replace (Zpos p~1) with (Zpos p + Zpos p + 1) by lia.
    rewrite !Z.pow_add_r by lia. change (2 ^ 1) with 2. ring.
  - apply IH, IH.
    replace (B * 2 ^ Zpos p * 2 ^ Zpos p) with (B * 2 ^ Zpos p~0);
      [exact H |].
    replace (Zpos p~0) with (Zpos p + Zpos p) by lia.
    rewrite !Z.pow_add_r by lia. ring.
  - apply shr_1_below.
    replace (2 * B) with (B * 2 ^ 1); [exact H |].
    change (2 ^ 1) with 2. ring.
Qed.

Lemma Zdigits2_le (m k : Z) : 0 <= m < 2 ^ k -> 0 <= k -> Zdigits2 m <= k.
Proof.
  intros Hm Hk. destruct m as [| p | p]; cbn [Zdigits2]; try lia.
  apply digits2_pos_le; lia.
Qed.

Lemma shr_fexp_below (c m e : Z) (l : location) :
  0 < c < 2 ^ 16 -> e <= 0 ->
  shr_below (shr_record_of_loc m l) (c * 2 ^ (- e)) ->
  e <= snd (shr_fexp prec emax m e l) <= 0 /\
  shr_below (fst (shr_fexp prec emax m e l))
            (c * 2 ^ (- snd (shr_fexp prec emax m e l))).
Proof.
  intros Hc He Hb.
  assert (Hm : 0 <= m < 2 ^ (16 - e)).
  { destruct Hb as [H0 H1].
    assert (shr_m (shr_record_of_loc m l) = m) as Em
      by (destruct l as [| []]; reflexivity).
    rewrite Em in H0, H1.
    split; [exact H0 |].
    replace (16 - e) with (16 + - e) by lia.
    rewrite Z.pow_add_r by lia.
    assert (0 < 2 ^ (- e)) by (apply Z.pow_pos_nonneg; lia).
    assert (0 <= Z.b2z (shr_r (shr_record_of_loc m l) || shr_s (shr_record_of_loc m l)))
      by (destruct (_ || _); cbn; lia).
    nia. }
  assert (Hd : Zdigits2 m + e <= 16).
  { pose proof (Zdigits2_le m (16 - e) Hm). lia. }
  unfold shr_fexp, shr.
  assert (Hf : fexp prec emax (Zdigits2 m + e) <= 0).
  { unfold fexp, emin, prec, emax. lia. }
  destruct (fexp prec emax (Zdigits2 m + e) - e) as [| p | p] eqn:En;
    cbn [fst snd].
  - split; [lia | exact Hb].
  - split; [lia |].
    apply iter_shr_below.
    replace (c * 2 ^ (- (e + Zpos p)) * 2 ^ Zpos p) with (c * 2 ^ (- e));
      [exact Hb |].
    replace (- e) with (- (e + Zpos p) + Zpos p) at 1 by lia.
    rewrite Z.pow_add_r by lia. ring.
  - split; [lia | exact Hb].
Qed.

Lemma round_nearest_even_below (r : shr_record) (B : Z) :
  shr_below r B ->
  0 <= round_nearest_even (shr_m r) (loc_of_shr_record r) <= B.
Proof.
  destruct r as [m r s]. unfold shr_below; cbn [shr_m shr_r shr_s].
  intros [H0 H].
  destruct r, s; cbn [orb Z.b2z loc_of_shr_record round_nearest_even] in *;
    try destruct (Z.even m); lia.
Qed.

(** Rounding a non-negative dyadic that does not exceed the 16-bit integer
    [c] gives a zero or a finite float that does not exceed [c]. *)
Lemma binary_round_aux_below (c mx ex : Z) :
  0 < c < 2 ^ 16 -> ex <= 0 -> 0 <= mx <= c * 2 ^ (- ex) ->
  binary_round_aux prec emax false mx ex loc_Exact = S754_zero false \/
  exists m e,
    binary_round_aux prec emax false mx ex loc_Exact = S754_finite false m e /\
    e <= 0 /\ Zpos m <= c * 2 ^ (- e).
Proof.
  intros Hc Hex Hmx.
  unfold binary_round_aux.
  assert (Hb0 : shr_below (shr_record_of_loc mx loc_Exact) (c * 2 ^ (- ex))).
  { unfold shr_below; cbn. lia. }
  destruct (shr_fexp_below c mx ex loc_Exact Hc Hex Hb0) as [He1 Hb1].
  destruct (shr_fexp prec emax mx ex loc_Exact) as [r1 e1].
  cbn [fst snd] in He1, Hb1.
  pose proof (round_nearest_even_below r1 _ Hb1) as Hm1.
  set (m1 := round_nearest_even (shr_m r1) (loc_of_shr_record r1)) in *.
  assert (Hb1' : shr_below (shr_record_of_loc m1 loc_Exact) (c * 2 ^ (- e1))).
  { unfold shr_below; cbn. lia. }
  destruct (shr_fexp_below c m1 e1 loc_Exact Hc (proj2 He1) Hb1') as [He2 Hb2].
  destruct (shr_fexp prec emax m1 e1 loc_Exact) as [r2 e2].
  cbn [fst snd] in He2, Hb2.
  destruct Hb2 as [H0 H2].
  assert (0 <= Z.b2z (shr_r r2 || shr_s r2)) by (destruct (_ || _); cbn; lia).
  destruct (shr_m r2) as [| m | m]; [left; reflexivity | right | lia].
  exists m, e2.
  replace (e2 <=? emax - prec) with true
    by (symmetry; apply Z.leb_le; unfold emax, prec; lia).
  repeat split; lia.
Qed.

Lemma round_shift_spec (t n : Z) :
  0 < n -> round_shift t n = round_half_even t (2 ^ n).
Proof.
  intros Hn. unfold round_shift, round_half_even.
  rewrite Z.shiftr_div_pow2, Z.land_ones, Z.shiftl_1_l by lia.
  assert (E : 2 ^ n = 2 * 2 ^ (n - 1))
    by (rewrite <- Z.pow_succ_r by lia; f_equal; lia).
  set (r := t mod 2 ^ n).
  assert (C : (r ?= 2 ^ (n - 1)) = (2 * r ?= 2 ^ n)).
  { rewrite E.
    destruct (Z.compare_spec r (2 ^ (n - 1))),
             (Z.compare_spec (2 * r) (2 * 2 ^ (n - 1)));
      first [reflexivity | lia]. }
  rewrite C. reflexivity.
Qed.

Lemma round_half_even_below (c t d : Z) :
  0 < d -> 0 <= t <= c * d -> 0 <= round_half_even t d <= c.
Proof.
  intros Hd Ht. unfold round_half_even.
  pose proof (Z.div_mod t d ltac:(lia)) as E.
  pose proof (Z.mod_pos_bound t d Hd) as Hr.
  assert (Hq : 0 <= t / d) by (apply Z.div_pos; lia).
  assert (Hqc : t / d <= c) by (apply Z.div_le_upper_bound; lia).
  destruct (Z.compare_spec (2 * (t mod d)) d) as [H | H | H].
  - destruct (Z.even (t / d)); nia.
  - lia.
  - nia.
Qed.

Lemma round_dyadic_below (c m e : Z) :
  e <= 0 -> 0 <= m <= c * 2 ^ (- e) -> 0 <= round_dyadic m e <= c.
Proof.
  intros He Hm. unfold round_dyadic.
  destruct (Z.leb_spec 0 e) as [H | H].
  - assert (e = 0) as -> by lia. cbn in Hm. rewrite Z.shiftl_0_r. lia.
  - rewrite round_shift_spec by lia.
    apply round_half_even_below; [apply Z.pow_pos_nonneg; lia | exact Hm].
Qed.

Lemma Prim2SF_0xFFFF :
  Prim2SF (float_lit 0xFFFF) = S754_finite false 9007061815787520 (-37).
Proof. vm_compute; reflexivity. Qed.

Lemma Prim2SF_1 :
  Prim2SF (float_lit 1) = S754_finite false 4503599627370496 (-52).
Proof. vm_compute; reflexivity. Qed.

Lemma Prim2SF_255 :
  Prim2SF (float_lit 255) = S754_finite false 8972014882652160 (-45).
Proof. vm_compute; reflexivity. Qed.

(** Every float axis of [0, 1] encodes, to a 16-bit value. *)
Lemma axis_to_knx_unit_interval (f : float) :
  unit_interval f = true ->
  exists n, DPTColorXYY.axis_to_knx (PyFloat f) = Ok n /\ 0 <= n <= 0xFFFF.
Proof.
  intros U.
  unfold DPTColorXYY.axis_to_knx, py_mul_lit, py_round, float_round.
  cbn [bind].
  rewrite FloatAxioms.mul_spec, Prim2SF_0xFFFF.
  destruct (between_cases f 1 _ _ Prim2SF_1 U)
    as [[s ->] | [m [e [-> [Hm He]]]]].
  - exists 0. cbn. split; [reflexivity | lia].
  - unfold SF64mul, SFmul. cbn [xorb].
    destruct (binary_round_aux_below 0xFFFF (Zpos (m * 9007061815787520))
                (e + -37)) as [-> | [m' [e' [-> [He' Hm']]]]].
    + lia.
    + lia.
    + split; [lia |].
      replace (- (e + -37)) with (37 + - e) by lia.
      rewrite Z.pow_add_r by lia.
      assert (Zpos m <= 2 ^ (- e)).
      { destruct He as [He | [-> He]].
        - assert (2 ^ 53 <= 2 ^ (- e)) by (apply Z.pow_le_mono_r; lia). lia.
        - cbn. lia. }
      rewrite Pos2Z.inj_mul. change (2 ^ 37) with 137438953472. nia.
    + exists 0. split; [reflexivity | lia].
    + exists (round_dyadic (Zpos m') e'). cbn [cond_Zopp].
      split; [reflexivity |].
      apply round_dyadic_below; [exact He' | lia].
Qed.

(** Every float brightness of [0, 255] truncates to an int of [0, 255]. *)
Lemma float_trunc_in_range (f : float) :
  ((float_lit 0 <=? f)%float && (f <=? float_lit 255)%float)%bool = true ->
  exists n, float_trunc f = Ok n /\ 0 <= n <= 255.
Proof.
  intros H. unfold float_trunc.
  destruct (between_cases f 255 _ _ Prim2SF_255 H)
    as [[s ->] | [m [e [-> [Hm He]]]]].
  - exists 0. split; [reflexivity | lia].
  - exists (Z.shiftl (Zpos m) e). cbn [cond_Zopp]. split; [reflexivity |].
    assert (E : Z.shiftl (Zpos m) e = Zpos m / 2 ^ (- e)).
    { rewrite <- Z.shiftr_div_pow2 by lia. rewrite <- Z.shiftr_opp_r.
      f_equal; lia. }
    rewrite E.
    assert (0 < 2 ^ (- e)) by (apply Z.pow_pos_nonneg; lia).
    split; [apply Z.div_pos; lia |].
    enough (Zpos m / 2 ^ (- e) < 256) by lia.
    apply Z.div_lt_upper_bound; [lia |].
    destruct He as [He | [-> He]].
    + assert (2 ^ 46 <= 2 ^ (- e)) by (apply Z.pow_le_mono_r; lia).
      change (2 ^ 53) with (2 ^ 46 * 128) in Hm. nia.
    + cbn. lia.
Qed.

(** Python equality of two floats: the same float, or two zeros. *)
Lemma float_eqb_cases (x y : float) :
  (x =? y)%float = true ->
  x = y \/ exists s s', Prim2SF x = S754_zero s /\ Prim2SF y = S754_zero s'.
Proof.
  rewrite FloatAxioms.eqb_spec. unfold SFeqb, SFcompare.
  destruct (Prim2SF x) as [s | s | | s m e] eqn:Ex;
    destruct (Prim2SF y) as [s' | s' | | s' m' e'] eqn:Ey;
    try discriminate; try (destruct s; discriminate);
    try (destruct s'; discriminate).
  - intros _. right. exists s, s'. split; reflexivity.
  - intros H. left. apply Prim2SF_inj. rewrite Ex, Ey.
    destruct s, s'; first [reflexivity | discriminate].
  - intros H. left. apply Prim2SF_inj. rewrite Ex, Ey.
    change (Pos.compare_cont Eq m m') with (Pos.compare m m') in H.
    destruct s, s'; try discriminate;
      destruct (Z.compare_spec e e'); try discriminate;
      destruct (Pos.compare_spec m m'); try discriminate;
      subst; reflexivity.
Qed.

(** Floats that are equal for Python encode alike. *)
Lemma axis_to_knx_eqb (x y : float) :
  (x =? y)%float = true ->
  DPTColorXYY.axis_to_knx (PyFloat x) = DPTColorXYY.axis_to_knx (PyFloat y).
Proof.
  intros H.
  destruct (float_eqb_cases x y H) as [-> | [s [s' [Ex Ey]]]];
    [reflexivity |].
  unfold DPTColorXYY.axis_to_knx, py_mul_lit, py_round, float_round.
  cbn [bind].
  rewrite !FloatAxioms.mul_spec, Prim2SF_0xFFFF, Ex, Ey.
  reflexivity.
Qed.

End FloatFacts.

(** ** The fractions [i / 0xFFFF], checked one by one *)

Section Fractions.

Lemma forall_from_sound (p : Z -> bool) (fuel : nat) :
  forall i, forall_from fuel i p = true ->
  forall j, i <= j < i + Z.of_nat fuel -> p j = true.
Proof.
  induction fuel as [| fuel IH]; intros i H j Hj.
  - cbn in Hj; lia.
  - rewrite Nat2Z.inj_succ in Hj.
    cbn [forall_from] in H.
    apply andb_prop in H; destruct H as [Hi Hrest].
    destruct (Z.eq_dec j i) as [-> | Hne]; [exact Hi |].
    apply (IH (i + 1)); [exact Hrest | lia].
Qed.

Lemma fraction_check_all :
  forall_from (Z.to_nat 65536) 0 fraction_check = true.
Proof. vm_compute. reflexivity. Qed.

Lemma fraction_check_true (i : Z) :
  0 <= i <= 0xFFFF -> fraction_check i = true.
Proof.
  intros Hi.
  apply (forall_from_sound fraction_check _ 0 fraction_check_all).
  rewrite Z2Nat.id; lia.
Qed.

Lemma result_is_true (r : result Z) (i : Z) : result_is r i = true -> r = Ok i.
Proof.
  destruct r as [j | e]; cbn; intros H; [| discriminate].
  apply Z.eqb_eq in H; now subst.
Qed.

(** Every fraction [i / 0xFFFF] is a float of [0, 1] that encodes to [i],
    and so is its rounding to 5 digits. *)
Lemma fraction_facts (i : Z) :
  0 <= i <= 0xFFFF ->
  exists x,
    int_truediv i 0xFFFF = Ok x /\
    unit_interval x = true /\
    DPTColorXYY.axis_to_knx (PyFloat x) = Ok i /\
    unit_interval (float_round_ndigits x 5) = true /\
    DPTColorXYY.axis_to_knx (PyFloat (float_round_ndigits x 5)) = Ok i.
Proof.
  intros Hi.
  pose proof (fraction_check_true i Hi) as H.
  unfold fraction_check in H.
  destruct (int_truediv i 0xFFFF) as [x | e]; [| discriminate].
  exists x.
  apply andb_prop in H; destruct H as [H H4].
  apply andb_prop in H; destruct H as [H H3].
  apply andb_prop in H; destruct H as [H1 H2].
  apply result_is_true in H2, H4.
  repeat split; assumption.
Qed.

Lemma fixed16_facts (x : float) :
  fixed16 x ->
  exists i,
    0 <= i <= 0xFFFF /\
    unit_interval x = true /\
    DPTColorXYY.axis_to_knx (PyFloat x) = Ok i /\
    DPTColorXYY.axis_from_knx i = Ok (PyFloat (float_round_ndigits x 5)).
Proof.
  intros [i [Hi Hx]].
  destruct (fraction_facts i Hi) as [x' [E [U [A _]]]].
  rewrite Hx in E; injection E as <-.
  exists i; repeat split; try assumption; try lia.
  unfold DPTColorXYY.axis_from_knx. rewrite Hx. reflexivity.
Qed.

(** Decoding a 16-bit axis succeeds, with a float of [0, 1] that encodes
    back to the same 16 bits. *)
Lemma axis_from_knx_facts (i : Z) :
  0 <= i <= 0xFFFF ->
  exists d,
    DPTColorXYY.axis_from_knx i = Ok (PyFloat d) /\
    unit_interval d = true /\
    DPTColorXYY.axis_to_knx (PyFloat d) = Ok i.
Proof.
  intros Hi.
  destruct (fraction_facts i Hi) as [x [E [_ [_ [U A]]]]].
  exists (float_round_ndigits x 5).
  unfold DPTColorXYY.axis_from_knx. rewrite E.
  repeat split; assumption.
Qed.

End Fractions.

(** ** The codec, step by step *)

Section Codec.

Import DPTColorXYY.

(** [from_knx] on six raw values: the two flag bits decide what is built. *)
Lemma from_knx_six (r0 r1 r2 r3 r4 r5 : Z) :
  from_knx (DPTArray [r0; r1; r2; r3; r4; r5]) =
  (c <- (if Z.testbit r5 1 then
           x <- axis_from_knx (Z.lor (Z.shiftl r0 8) r1) ;;
           y <- axis_from_knx (Z.lor (Z.shiftl r2 8) r3) ;;
           Ok (Some (x, y))
         else Ok None) ;;
   Ok (mkXYYColor c (if Z.testbit r5 0 then PyInt r4 else PyNone))).
Proof.
  unfold from_knx, validate_payload, getitem.
  cbn [List.length Nat.eqb payload_length nth_error bind].
  rewrite (flag_bit r5 1) by lia.
  rewrite flag_bit0.
  reflexivity.
Qed.

(** A list of six octets, named. *)
Lemma six_octets (raw : list Z) :
  List.length raw = 6%nat -> Forall is_byte raw ->
  exists r0 r1 r2 r3 r4 r5,
    raw = [r0; r1; r2; r3; r4; r5] /\
    is_byte r0 /\ is_byte r1 /\ is_byte r2 /\ is_byte r3 /\
    is_byte r4 /\ is_byte r5.
Proof.
  intros Hlen Hall.
  do 6 (destruct raw as [| ? raw]; [discriminate Hlen |]).
  destruct raw; [| discriminate Hlen].
  repeat match goal with
         | H : Forall _ (_ :: _) |- _ => inversion H; subst; clear H
         end.
  do 6 eexists. split; [reflexivity |]. auto 10.
Qed.

(** [from_knx] on six octets succeeds; each decoded axis is a float of
    [0, 1] that encodes back to the 16 bits it came from. *)
Lemma from_knx_octets (r0 r1 r2 r3 r4 r5 : Z) :
  is_byte r0 -> is_byte r1 -> is_byte r2 -> is_byte r3 ->
  exists dx dy,
    axis_from_knx (Z.lor (Z.shiftl r0 8) r1) = Ok (PyFloat dx) /\
    axis_from_knx (Z.lor (Z.shiftl r2 8) r3) = Ok (PyFloat dy) /\
    unit_interval dx = true /\ unit_interval dy = true /\
    from_knx (DPTArray [r0; r1; r2; r3; r4; r5]) =
    Ok (mkXYYColor
          (if Z.testbit r5 1 then Some (PyFloat dx, PyFloat dy) else None)
          (if Z.testbit r5 0 then PyInt r4 else PyNone)).
Proof.
  intros H0 H1 H2 H3.
  destruct (axis_from_knx_facts _ (join16_range r0 r1 H0 H1)) as [dx [Ex [Ux _]]].
  destruct (axis_from_knx_facts _ (join16_range r2 r3 H2 H3)) as [dy [Ey [Uy _]]].
  exists dx, dy.
  rewrite from_knx_six, Ex, Ey.
  repeat split; try assumption.
  destruct (Z.testbit r5 1); reflexivity.
Qed.

(** The flag octet [color_valid << 1 | brightness_valid]. *)
Lemma flags_testbit (cv bv : bool) :
  let flags := Z.lor (Z.shiftl (Z.b2z cv) 1) (Z.b2z bv) in
  Z.testbit flags 1 = cv /\ Z.testbit flags 0 = bv.
Proof. destruct cv, bv; split; reflexivity. Qed.

(** Decoding what [to_knx] assembles from two 16-bit axes. *)
Lemma from_knx_assembled (i j b : Z) (cv bv : bool) :
  0 <= i <= 0xFFFF -> 0 <= j <= 0xFFFF ->
  from_knx
    (DPTArray [ Z.shiftr i 8; Z.land i 0xFF; Z.shiftr j 8; Z.land j 0xFF; b;
                Z.lor (Z.shiftl (Z.b2z cv) 1) (Z.b2z bv) ]) =
  (c <- (if cv then
           x <- axis_from_knx i ;;
           y <- axis_from_knx j ;;
           Ok (Some (x, y))
         else Ok None) ;;
   Ok (mkXYYColor c (if bv then PyInt b else PyNone))).
Proof.
  intros Hi Hj.
  rewrite from_knx_six.
  destruct (split16_join i Hi) as [_ [_ ->]].
  destruct (split16_join j Hj) as [_ [_ ->]].
  destruct (flags_testbit cv bv) as [-> ->].
  reflexivity.
Qed.

(** [to_knx] once both blocks have succeeded. *)
Lemma to_knx_blocks (c : option (pyval * pyval)) (b : pyval)
      (cv bv : bool) (x y n : Z) :
  color_to_knx c = Ok (cv, x, y) ->
  brightness_to_knx b = Ok (bv, n) ->
  to_knx (mkXYYColor c b) =
  Ok (DPTArray [ Z.shiftr x 8; Z.land x 0xFF; Z.shiftr y 8; Z.land y 0xFF; n;
                 Z.lor (Z.shiftl (Z.b2z cv) 1) (Z.b2z bv) ]).
Proof.
  intros Hc Hb. unfold to_knx. cbn [color brightness].
  rewrite Hc. cbn [bind]. rewrite Hb. reflexivity.
Qed.

(** The colour block on two axes at 16-bit resolution. *)
Lemma color_to_knx_fixed16 (x y : float) (i j : Z) :
  unit_interval x = true -> unit_interval y = true ->
  axis_to_knx (PyFloat x) = Ok i -> axis_to_knx (PyFloat y) = Ok j ->
  color_to_knx (Some (PyFloat x, PyFloat y)) = Ok (true, i, j).
Proof.
  intros Ux Uy Ex Ey.
  unfold color_to_knx, check_axis, py_between.
  fold (unit_interval x). fold (unit_interval y).
  rewrite Ux, Uy. cbn [bind negb]. rewrite Ex, Ey. reflexivity.
Qed.

(** The brightness block on an int of [0, 255]. *)
Lemma brightness_to_knx_int (b : Z) :
  0 <= b <= 255 -> brightness_to_knx (PyInt b) = Ok (true, b).
Proof.
  intros Hb. unfold brightness_to_knx, py_between, py_int.
  cbn [is_not_none bind].
  replace ((0 <=? b) && (b <=? 255))%bool with true; [reflexivity |].
  symmetry; apply andb_true_intro; split; apply Z.leb_le; lia.
Qed.

(** An axis that passes the range test encodes, to a 16-bit value. *)
Lemma axis_to_knx_valid (a : pyval) :
  py_between 0 a 1 = Ok true ->
  exists n, axis_to_knx a = Ok n /\ 0 <= n <= 0xFFFF.
Proof.
  destruct a as [| z | f]; cbn [py_between]; intros H.
  - discriminate H.
  - injection H as H. apply andb_prop in H; destruct H as [H0 H1].
    apply Z.leb_le in H0, H1.
    exists (z * 0xFFFF). split; [reflexivity | lia].
  - injection H as H. apply axis_to_knx_unit_interval. exact H.
Qed.

Lemma check_axis_valid (a : pyval) :
  py_between 0 a 1 = Ok true -> check_axis a = Ok tt.
Proof. intros H. unfold check_axis. rewrite H. reflexivity. Qed.

(** The range test has three outcomes: in range, out of range, or a
    [TypeError] on [None]. *)
Lemma py_between_cases (lo hi : Z) (a : pyval) :
  py_between lo a hi = Ok true \/ py_between lo a hi = Ok false \/
  py_between lo a hi = Raise TypeError.
Proof.
  destruct a as [| z | f]; cbn [py_between].
  - right; right; reflexivity.
  - destruct ((lo <=? z) && (z <=? hi))%bool; auto.
  - destruct ((float_lit lo <=? f)%float && (f <=? float_lit hi)%float)%bool;
      auto.
Qed.

(** The colour block on a colour whose axes pass the range test. *)
Lemma color_to_knx_valid (x y : pyval) :
  py_between 0 x 1 = Ok true -> py_between 0 y 1 = Ok true ->
  exists i j,
    axis_to_knx x = Ok i /\ axis_to_knx y = Ok j /\
    0 <= i <= 0xFFFF /\ 0 <= j <= 0xFFFF /\
    color_to_knx (Some (x, y)) = Ok (true, i, j).
Proof.
  intros Hx Hy.
  destruct (axis_to_knx_valid x Hx) as [i [Ei Hi]].
  destruct (axis_to_knx_valid y Hy) as [j [Ej Hj]].
  exists i, j. repeat split; try assumption; try lia.
  unfold color_to_knx.
  rewrite (check_axis_valid x Hx), (check_axis_valid y Hy).
  cbn [bind]. rewrite Ei, Ej. reflexivity.
Qed.

(** The colour block either succeeds with two 16-bit values or raises one
    of the two exceptions that [to_knx] converts. *)
Lemma color_to_knx_cases (c : option (pyval * pyval)) :
  (exists cv i j, color_to_knx c = Ok (cv, i, j) /\
                  0 <= i <= 0xFFFF /\ 0 <= j <= 0xFFFF) \/
  color_to_knx c = Raise ValueError \/ color_to_knx c = Raise TypeError.
Proof.
  destruct c as [[x y] |].
  - destruct (py_between_cases 0 1 x) as [Hx | [Hx | Hx]].
    + destruct (py_between_cases 0 1 y) as [Hy | [Hy | Hy]].
      * left. destruct (color_to_knx_valid x y Hx Hy)
          as [i [j [_ [_ [Hi [Hj E]]]]]].
        exists true, i, j. auto.
      * right; left. unfold color_to_knx.
        rewrite (check_axis_valid x Hx). unfold check_axis. rewrite Hy.
        reflexivity.
      * right; right. unfold color_to_knx.
        rewrite (check_axis_valid x Hx). unfold check_axis. rewrite Hy.
        reflexivity.
    + right; left. unfold color_to_knx, check_axis. rewrite Hx. reflexivity.
    + right; right. unfold color_to_knx, check_axis. rewrite Hx. reflexivity.
  - left. exists false, 0, 0. cbn. repeat split; lia.
Qed.

(** The colour block on a colour with an axis outside [0, 1]. *)
Lemma color_to_knx_out_of_range (x y : pyval) :
  py_between 0 x 1 = Ok false \/ py_between 0 y 1 = Ok false ->
  color_to_knx (Some (x, y)) = Raise ValueError \/
  color_to_knx (Some (x, y)) = Raise TypeError.
Proof.
  intros H.
  destruct (color_to_knx_cases (Some (x, y)))
    as [[cv [i [j [E _]]]] | H']; [| exact H'].
  exfalso. unfold color_to_knx, check_axis in E.
  destruct (py_between 0 x 1) as [[|] |] eqn:Hx; cbn [bind negb] in E;
    try discriminate E.
  destruct (py_between 0 y 1) as [[|] |] eqn:Hy; cbn [bind negb] in E;
    try discriminate E.
  destruct H as [H | H]; discriminate H.
Qed.

(** The brightness block on a brightness that passes the range test:
    [int(brightness)], an int of [0, 255]. *)
Lemma brightness_to_knx_valid (b : pyval) :
  py_between 0 b 255 = Ok true ->
  exists n, py_int b = Ok n /\ 0 <= n <= 255 /\
            brightness_to_knx b = Ok (true, n).
Proof.
  intros H.
  assert (E : exists n, py_int b = Ok n /\ 0 <= n <= 255).
  { destruct b as [| z | f]; cbn [py_between py_int] in *.
    - discriminate H.
    - injection H as H. apply andb_prop in H; destruct H as [H0 H1].
      apply Z.leb_le in H0, H1. exists z. split; [reflexivity | lia].
    - injection H as H. apply float_trunc_in_range. exact H. }
  destruct E as [n [En Hn]]. exists n. repeat split; try assumption; try lia.
  unfold brightness_to_knx. rewrite H.
  destruct b; [discriminate H | |]; cbn [is_not_none bind negb];
    rewrite En; reflexivity.
Qed.

(** The brightness block on a brightness outside [0, 255]. *)
Lemma brightness_to_knx_out_of_range (b : pyval) :
  py_between 0 b 255 = Ok false -> brightness_to_knx b = Raise ValueError.
Proof.
  intros H. unfold brightness_to_knx. rewrite H.
  destruct b; [discriminate H | |]; reflexivity.
Qed.

(** [to_knx] when the brightness is outside [0, 255], whatever the colour. *)
Lemma to_knx_brightness_out_of_range (c : option (pyval * pyval)) (b : pyval) :
  py_between 0 b 255 = Ok false ->
  to_knx (mkXYYColor c b) = Raise ConversionError.
Proof.
  intros H. unfold to_knx. cbn [color brightness].
  destruct (color_to_knx_cases c) as [[cv [i [j [E _]]]] | [E | E]];
    rewrite E; cbn [bind except_value_type_error]; try reflexivity.
  rewrite (brightness_to_knx_out_of_range b H). reflexivity.
Qed.

(** The brightness block either succeeds with an octet or raises
    [ValueError]. *)
Lemma brightness_to_knx_cases (b : pyval) :
  (exists bv n, brightness_to_knx b = Ok (bv, n) /\ 0 <= n <= 255) \/
  brightness_to_knx b = Raise ValueError.
Proof.
  destruct (py_between_cases 0 255 b) as [H | [H | H]].
  - left. destruct (brightness_to_knx_valid b H) as [n [_ [Hn E]]].
    exists true, n. auto.
  - right. apply brightness_to_knx_out_of_range, H.
  - left. exists false, 0.
    destruct b as [| z | f]; [| discriminate H | discriminate H].
    split; [reflexivity | lia].
Qed.

End Codec.

(** * The claims *)

Section Claims.

Import DPTColorXYY.

(** C1. Round trip of colour and brightness: for axes [x], [y] at 16-bit
    fixed-point resolution (the floats [i / 0xFFFF]) and an int brightness
    [b] of [0, 255], decoding the encoding of [XYYColor((x, y), b)] gives the
    colour [(round(x, 5), round(y, 5))] and the brightness [b] itself. *)
Theorem roundtrip_color_brightness (x y : float) (b : Z) :
  fixed16 x -> fixed16 y -> 0 <= b <= 255 ->
  (p <- to_knx (mkXYYColor (Some (PyFloat x, PyFloat y)) (PyInt b)) ;;
   from_knx p) =
  Ok (mkXYYColor
        (Some (PyFloat (float_round_ndigits x 5),
               PyFloat (float_round_ndigits y 5)))
        (PyInt b)).
Proof.
  intros Hx Hy Hb.
  destruct (fixed16_facts x Hx) as [i [Hi [Ux [Ex Dx]]]].
  destruct (fixed16_facts y Hy) as [j [Hj [Uy [Ey Dy]]]].
  rewrite (to_knx_blocks _ _ true true i j b
             (color_to_knx_fixed16 x y i j Ux Uy Ex Ey)
             (brightness_to_knx_int b Hb)).
  cbn [bind].
  rewrite (from_knx_assembled i j b true true Hi Hj).
  rewrite Dx, Dy. reflexivity.
Qed.

(** C1 at the colour (0.6, 0.4) with brightness 102. *)
Lemma roundtrip_color_brightness_witness :
  (p <- to_knx (mkXYYColor
                  (Some (PyFloat 0x1.3333333333333p-1, PyFloat 0x1.999999999999ap-2))
                  (PyInt 102)) ;;
   from_knx p) =
  Ok (mkXYYColor
        (Some (PyFloat (float_round_ndigits 0x1.3333333333333p-1 5),
               PyFloat (float_round_ndigits 0x1.999999999999ap-2 5)))
        (PyInt 102)).
Proof.
  apply (roundtrip_color_brightness _ _ 102).
  - exists 39321. split; [lia | vm_compute; reflexivity].
  - exists 26214. split; [lia | vm_compute; reflexivity].
  - lia.
Defined.

(** C3. Decode fails exactly on a structurally wrong payload: a payload that
    is not a byte array of length 6 raises [ConversionError]; a byte array of
    six octets, whatever the octets, decodes to a value. *)
Theorem from_knx_fails_iff_structure (p : payload) :
  octets p ->
  (structurally_valid p = true -> exists v, from_knx p = Ok v) /\
  (structurally_valid p = false -> from_knx p = Raise ConversionError).
Proof.
  intros Hoct. destruct p as [raw | bit]; cbn [structurally_valid octets] in *.
  - split; intros Hlen.
    + apply Nat.eqb_eq in Hlen.
      destruct (six_octets raw Hlen Hoct)
        as [r0 [r1 [r2 [r3 [r4 [r5 [-> [H0 [H1 [H2 [H3 _]]]]]]]]]]].
      destruct (from_knx_octets r0 r1 r2 r3 r4 r5 H0 H1 H2 H3)
        as [dx [dy [_ [_ [_ [_ E]]]]]].
      eexists; exact E.
    + unfold from_knx, validate_payload. rewrite Hlen. reflexivity.
  - split; intros H; [discriminate H | reflexivity].
Qed.

(** C3 at the payloads of the tests: a six-octet array decodes, a four-octet
    array and a single-bit payload raise [ConversionError]. *)
Lemma from_knx_fails_iff_structure_witness :
  (exists v, from_knx (DPTArray [0x99; 0x99; 0x99; 0x99; 0x66; 0x03]) = Ok v) /\
  from_knx (DPTArray [0x64; 0x65; 0x66; 0x67]) = Raise ConversionError /\
  from_knx (DPTBinary 1) = Raise ConversionError.
Proof.
  split; [| split].
  - apply (from_knx_fails_iff_structure
             (DPTArray [0x99; 0x99; 0x99; 0x99; 0x66; 0x03])).
    + cbn; repeat constructor; lia.
    + reflexivity.
  - apply (from_knx_fails_iff_structure (DPTArray [0x64; 0x65; 0x66; 0x67])).
    + cbn; repeat constructor; lia.
    + reflexivity.
  - apply (from_knx_fails_iff_structure (DPTBinary 1)).
    + exact I.
    + reflexivity.
Defined.

(** C4. The validity bitmask decides: on six octets, a clear bit 1 of octet 5
    gives colour [None] whatever octets 0-3 hold, a clear bit 0 gives
    brightness [None] whatever octet 4 holds, and bits 2-7 of octet 5 do not
    change the decoded value. *)
Theorem validity_bitmask_authority (r0 r1 r2 r3 r4 r5 : Z) :
  is_byte r0 -> is_byte r1 -> is_byte r2 -> is_byte r3 ->
  exists v,
    from_knx (DPTArray [r0; r1; r2; r3; r4; r5]) = Ok v /\
    (Z.testbit r5 1 = false -> color v = None) /\
    (Z.testbit r5 0 = false -> brightness v = PyNone) /\
    from_knx (DPTArray [r0; r1; r2; r3; r4; Z.land r5 3]) = Ok v.
Proof.
  intros H0 H1 H2 H3.
  destruct (from_knx_octets r0 r1 r2 r3 r4 r5 H0 H1 H2 H3)
    as [dx [dy [Ex [Ey [_ [_ E]]]]]].
  eexists; split; [exact E |].
  cbn [color brightness].
  split; [intros ->; reflexivity |].
  split; [intros ->; reflexivity |].
  rewrite from_knx_six, !testbit_land_3, Ex, Ey by lia.
  destruct (Z.testbit r5 1); reflexivity.
Qed.

(** C4 at the colour octets of (1, 1) with a flag octet whose reserved bits
    are set and whose two validity bits are clear. *)
Lemma validity_bitmask_authority_witness :
  exists v,
    from_knx (DPTArray [0xFF; 0xFF; 0xFF; 0xFF; 0x66; 0xFC]) = Ok v /\
    (Z.testbit 0xFC 1 = false -> color v = None) /\
    (Z.testbit 0xFC 0 = false -> brightness v = PyNone) /\
    from_knx (DPTArray [0xFF; 0xFF; 0xFF; 0xFF; 0x66; Z.land 0xFC 3]) = Ok v.
Proof.
  apply (validity_bitmask_authority 0xFF 0xFF 0xFF 0xFF 0x66 0xFC);
    unfold is_byte; lia.
Defined.

(** C10. Decode never builds a value outside the data model: on six octets
    the decoded colour, when present, has both axes in [0, 1] (they pass the
    range test of the encoder), and the decoded brightness, when present, is
    an int of [0, 255]. *)
Theorem from_knx_domain (raw : list Z) :
  List.length raw = 6%nat -> Forall is_byte raw ->
  exists v,
    from_knx (DPTArray raw) = Ok v /\
    (forall x y, color v = Some (x, y) ->
       py_between 0 x 1 = Ok true /\ py_between 0 y 1 = Ok true) /\
    (brightness v = PyNone \/
     exists b, brightness v = PyInt b /\ 0 <= b <= 255).
Proof.
  intros Hlen Hall.
  destruct (six_octets raw Hlen Hall)
    as [r0 [r1 [r2 [r3 [r4 [r5 [-> [H0 [H1 [H2 [H3 [H4 _]]]]]]]]]]]].
  destruct (from_knx_octets r0 r1 r2 r3 r4 r5 H0 H1 H2 H3)
    as [dx [dy [_ [_ [Ux [Uy E]]]]]].
  eexists; split; [exact E |].
  cbn [color brightness]. split.
  - intros x y Hc.
    destruct (Z.testbit r5 1); [| discriminate Hc].
    injection Hc as <- <-.
    unfold py_between. fold (unit_interval dx). fold (unit_interval dy).
    rewrite Ux, Uy. split; reflexivity.
  - destruct (Z.testbit r5 0); [right | left; reflexivity].
    exists r4; split; [reflexivity | exact H4].
Qed.

(** C10 at the payload of the decoding test. *)
Lemma from_knx_domain_witness :
  exists v,
    from_knx (DPTArray [0x99; 0x99; 0x99; 0x99; 0x66; 0x03]) = Ok v /\
    (forall x y, color v = Some (x, y) ->
       py_between 0 x 1 = Ok true /\ py_between 0 y 1 = Ok true) /\
    (brightness v = PyNone \/
     exists b, brightness v = PyInt b /\ 0 <= b <= 255).
Proof.
  apply (from_knx_domain [0x99; 0x99; 0x99; 0x99; 0x66; 0x03]).
  - reflexivity.
  - repeat constructor; lia.
Defined.

(** C6. The decoded fraction of a raw 16-bit value is
    [round(raw / 0xFFFF, 5)]; encoding it again gives the raw value back, and
    distinct raw values decode to distinct floats, distinct also for
    Python's [==]. *)
Theorem decode_fraction_injective :
  (forall raw, 0 <= raw <= 0xFFFF ->
     exists q,
       int_truediv raw 0xFFFF = Ok q /\
       axis_from_knx raw = Ok (PyFloat (float_round_ndigits q 5)) /\
       axis_to_knx (PyFloat (float_round_ndigits q 5)) = Ok raw) /\
  (forall r1 r2 d1 d2,
     0 <= r1 <= 0xFFFF -> 0 <= r2 <= 0xFFFF ->
     axis_from_knx r1 = Ok (PyFloat d1) ->
     axis_from_knx r2 = Ok (PyFloat d2) ->
     r1 <> r2 -> d1 <> d2 /\ (d1 =? d2)%float = false).
Proof.
  assert (A : forall raw, 0 <= raw <= 0xFFFF ->
     exists q,
       int_truediv raw 0xFFFF = Ok q /\
       axis_from_knx raw = Ok (PyFloat (float_round_ndigits q 5)) /\
       axis_to_knx (PyFloat (float_round_ndigits q 5)) = Ok raw).
  { intros raw Hraw.
    destruct (fraction_facts raw Hraw) as [q [E [_ [_ [_ R]]]]].
    exists q. repeat split; try assumption.
    unfold axis_from_knx. rewrite E. reflexivity. }
  split; [exact A |].
  intros r1 r2 d1 d2 H1 H2 E1 E2 Hne.
  destruct (A r1 H1) as [q1 [_ [D1 R1]]].
  destruct (A r2 H2) as [q2 [_ [D2 R2]]].
  rewrite E1 in D1; injection D1 as D1.
  rewrite E2 in D2; injection D2 as D2.
  rewrite <- D1 in R1. rewrite <- D2 in R2.
  assert (I : axis_to_knx (PyFloat d1) = axis_to_knx (PyFloat d2) -> False).
  { intros E. rewrite R1, R2 in E. injection E as E. exact (Hne E). }
  split.
  - intros ->. apply I. reflexivity.
  - destruct (d1 =? d2)%float eqn:Heq; [| reflexivity].
    exfalso. apply I, axis_to_knx_eqb, Heq.
Qed.

(** C6 at the raw values 0x9999 and 0x6666 of the tests: the first encodes
    back from its decoded fraction, and the two decode to the distinct
    floats 0.6 and 0.4. *)
Lemma decode_fraction_injective_witness :
  (exists q,
     int_truediv 0x9999 0xFFFF = Ok q /\
     axis_from_knx 0x9999 = Ok (PyFloat (float_round_ndigits q 5)) /\
     axis_to_knx (PyFloat (float_round_ndigits q 5)) = Ok 0x9999) /\
  (0x1.3333333333333p-1%float <> 0x1.999999999999ap-2%float /\
   (0x1.3333333333333p-1 =? 0x1.999999999999ap-2)%float = false).
Proof.
  split.
  - apply (proj1 decode_fraction_injective 0x9999). lia.
  - apply (proj2 decode_fraction_injective 0x9999 0x6666).
    + lia.
    + lia.
    + vm_compute; reflexivity.
    + vm_compute; reflexivity.
    + lia.
Defined.

(** C5. Range rejection and the boundary: the mapping
    [{"x_axis": 1, "y_axis": 0.9, "brightness": 102}] encodes to
    [FF FF E6 66 66 03]; a colour with an axis outside [0, 1] and a
    brightness outside [0, 255] make [to_knx] raise [ConversionError], and a
    mapping with an axis outside [0, 1] makes [from_dict] raise it. *)
Theorem range_rejection :
  (v <- XYYColorM.from_dict
          [ ("x_axis"%string, PyInt 1);
            ("y_axis"%string, PyFloat 0x1.ccccccccccccdp-1);
            ("brightness"%string, PyInt 102) ] ;;
   to_knx v) = Ok (DPTArray [0xFF; 0xFF; 0xE6; 0x66; 0x66; 0x03]) /\
  (forall x y b,
     py_between 0 x 1 = Ok false \/ py_between 0 y 1 = Ok false ->
     to_knx (mkXYYColor (Some (x, y)) b) = Raise ConversionError) /\
  (forall c b,
     py_between 0 b 255 = Ok false ->
     to_knx (mkXYYColor c b) = Raise ConversionError) /\
  (forall data fx fy,
     py_float (get data "x_axis") = Ok fx ->
     py_float (get data "y_axis") = Ok fy ->
     unit_interval fx = false \/ unit_interval fy = false ->
     XYYColorM.from_dict data = Raise ConversionError).
Proof.
  split; [vm_compute; reflexivity |].
  split; [| split].
  - intros x y b H. unfold to_knx. cbn [color brightness].
    destruct (color_to_knx_out_of_range x y H) as [E | E];
      rewrite E; reflexivity.
  - exact to_knx_brightness_out_of_range.
  - intros data fx fy Ex Ey H. unfold XYYColorM.from_dict.
    assert (Nx : is_not_none (get data "x_axis") = true)
      by (destruct (get data "x_axis"); [discriminate Ex | |]; reflexivity).
    assert (Ny : is_not_none (get data "y_axis") = true)
      by (destruct (get data "y_axis"); [discriminate Ey | |]; reflexivity).
    rewrite Nx, Ny, Ex, Ey. cbn [andb bind py_between].
    fold (unit_interval fx). fold (unit_interval fy).
    destruct (unit_interval fx); cbn [negb bind];
      [| reflexivity].
    destruct (unit_interval fy); cbn [negb bind];
      [| reflexivity].
    destruct H as [H | H]; discriminate H.
Qed.

(** C5 at the rejected values of the tests: x = 2, x = -1 and
    brightness = 256. *)
Lemma range_rejection_witness :
  to_knx (mkXYYColor (Some (PyInt 2, PyInt 1)) (PyInt 1))
    = Raise ConversionError /\
  to_knx (mkXYYColor (Some (PyInt (-1), PyInt 1)) (PyInt 2))
    = Raise ConversionError /\
  to_knx (mkXYYColor (Some (PyFloat 0x1.3333333333333p-2, PyFloat 0.5))
                     (PyInt 256))
    = Raise ConversionError /\
  XYYColorM.from_dict
    [ ("x_axis"%string, PyInt 2); ("y_axis"%string, PyInt 1);
      ("brightness"%string, PyInt 1) ] = Raise ConversionError.
Proof.
  destruct range_rejection as [_ [Hcolor [Hbrightness Hdict]]].
  split; [| split; [| split]].
  - apply Hcolor. left; reflexivity.
  - apply Hcolor. left; reflexivity.
  - apply Hbrightness. reflexivity.
  - apply (Hdict _ 2%float 1%float).
    + vm_compute; reflexivity.
    + vm_compute; reflexivity.
    + left. vm_compute; reflexivity.
Defined.

(** C7 as stated fails: the colour (0.5, 0.5) without brightness is not
    preserved; it is encoded as [80 00 80 00 00 02] and decoded as
    (0.50001, 0.50001). *)
Lemma color_one_half_not_preserved :
  to_knx (mkXYYColor (Some (PyFloat 0.5, PyFloat 0.5)) PyNone)
    = Ok (DPTArray [0x80; 0x00; 0x80; 0x00; 0x00; 0x02]) /\
  from_knx (DPTArray [0x80; 0x00; 0x80; 0x00; 0x00; 0x02])
    = Ok (mkXYYColor
            (Some (PyFloat 0x1.00014f8b588e3p-1, PyFloat 0x1.00014f8b588e3p-1))
            PyNone) /\
  (0x1.00014f8b588e3p-1 =? 0.5)%float = false.
Proof. repeat split; vm_compute; reflexivity. Qed.

(** C7, amended. With the colour absent and an int brightness [b] of
    [0, 255], octets 0-3 are zero, the flag octet is 1 (colour-valid clear) and
    decoding gives colour [None] and brightness [b].  With a colour whose axes
    pass the range test and the brightness absent, octet 4 is zero, the flag
    octet is 2 (brightness-valid clear), and decoding gives brightness [None]
    and the colour quantised to 16 bits: each decoded axis is
    [round(n / 0xFFFF, 5)] for the encoded [n = round(axis * 0xFFFF)], which
    is [round(axis, 5)] for an axis at 16-bit resolution. *)
Theorem independent_optionality :
  (forall b, 0 <= b <= 255 ->
     to_knx (mkXYYColor None (PyInt b)) = Ok (DPTArray [0; 0; 0; 0; b; 1]) /\
     from_knx (DPTArray [0; 0; 0; 0; b; 1]) = Ok (mkXYYColor None (PyInt b))) /\
  (forall x y,
     py_between 0 x 1 = Ok true -> py_between 0 y 1 = Ok true ->
     exists i j dx dy,
       axis_to_knx x = Ok i /\ axis_to_knx y = Ok j /\
       axis_from_knx i = Ok (PyFloat dx) /\
       axis_from_knx j = Ok (PyFloat dy) /\
       to_knx (mkXYYColor (Some (x, y)) PyNone) =
       Ok (DPTArray [ Z.shiftr i 8; Z.land i 0xFF;
                      Z.shiftr j 8; Z.land j 0xFF; 0; 2 ]) /\
       from_knx (DPTArray [ Z.shiftr i 8; Z.land i 0xFF;
                            Z.shiftr j 8; Z.land j 0xFF; 0; 2 ]) =
       Ok (mkXYYColor (Some (PyFloat dx, PyFloat dy)) PyNone)) /\
  (forall x y,
     fixed16 x -> fixed16 y ->
     (p <- to_knx (mkXYYColor (Some (PyFloat x, PyFloat y)) PyNone) ;;
      from_knx p) =
     Ok (mkXYYColor
           (Some (PyFloat (float_round_ndigits x 5),
                  PyFloat (float_round_ndigits y 5)))
           PyNone)).
Proof.
  split; [| split].
  - intros b Hb. split.
    + apply (to_knx_blocks None (PyInt b) false true 0 0 b);
        [reflexivity | apply brightness_to_knx_int, Hb].
    + rewrite from_knx_six. reflexivity.
  - intros x y Hx Hy.
    destruct (color_to_knx_valid x y Hx Hy) as [i [j [Ei [Ej [Hi [Hj E]]]]]].
    destruct (axis_from_knx_facts i Hi) as [dx [Dx _]].
    destruct (axis_from_knx_facts j Hj) as [dy [Dy _]].
    exists i, j, dx, dy.
    repeat (split; [assumption |]).
    split.
    + apply (to_knx_blocks (Some (x, y)) PyNone true false i j 0 E).
      reflexivity.
    + pose proof (from_knx_assembled i j 0 true false Hi Hj) as F.
      change (Z.lor (Z.shiftl (Z.b2z true) 1) (Z.b2z false)) with 2 in F.
      rewrite F, Dx, Dy. reflexivity.
  - intros x y Hx Hy.
    destruct (fixed16_facts x Hx) as [i [Hi [Ux [Ex Dx]]]].
    destruct (fixed16_facts y Hy) as [j [Hj [Uy [Ey Dy]]]].
    rewrite (to_knx_blocks _ PyNone true false i j 0
               (color_to_knx_fixed16 x y i j Ux Uy Ex Ey) eq_refl).
    cbn [bind].
    rewrite (from_knx_assembled i j 0 true false Hi Hj), Dx, Dy.
    reflexivity.
Qed.

(** C7 at brightness 102 without colour and at the colour (0.6, 0.4) without
    brightness. *)
Lemma independent_optionality_witness :
  (to_knx (mkXYYColor None (PyInt 102)) = Ok (DPTArray [0; 0; 0; 0; 102; 1]) /\
   from_knx (DPTArray [0; 0; 0; 0; 102; 1]) = Ok (mkXYYColor None (PyInt 102))) /\
  (p <- to_knx (mkXYYColor
                  (Some (PyFloat 0x1.3333333333333p-1, PyFloat 0x1.999999999999ap-2))
                  PyNone) ;;
   from_knx p) =
  Ok (mkXYYColor
        (Some (PyFloat (float_round_ndigits 0x1.3333333333333p-1 5),
               PyFloat (float_round_ndigits 0x1.999999999999ap-2 5)))
        PyNone).
Proof.
  split.
  - apply (proj1 independent_optionality 102). lia.
  - apply (proj2 (proj2 independent_optionality)).
    + exists 39321. split; [lia | vm_compute; reflexivity].
    + exists 26214. split; [lia | vm_compute; reflexivity].
Defined.

(** C8 as stated fails: the brightness 102.5 is not rejected; [int()]
    truncates it and it is encoded as the octet 102. *)
Lemma fractional_brightness_accepted :
  to_knx (mkXYYColor None (PyFloat 102.5))
    = Ok (DPTArray [0; 0; 0; 0; 102; 1]) /\
  to_knx (mkXYYColor None (PyFloat 102.5))
    = to_knx (mkXYYColor None (PyInt 102)).
Proof. split; vm_compute; reflexivity. Qed.

(** C8, amended. A present brightness is checked against [0, 255] only: out
    of the range, [to_knx] raises [ConversionError] whatever the colour; in
    the range it is converted with [int()], which truncates a float toward
    zero, and the resulting int of [0, 255] is octet 4 of the payload. *)
Theorem brightness_range_check (c : option (pyval * pyval)) (b : pyval) :
  (py_between 0 b 255 = Ok false ->
   to_knx (mkXYYColor c b) = Raise ConversionError) /\
  (py_between 0 b 255 = Ok true ->
   exists n,
     py_int b = Ok n /\ 0 <= n <= 255 /\
     forall cv i j,
       color_to_knx c = Ok (cv, i, j) ->
       to_knx (mkXYYColor c b) =
       Ok (DPTArray [ Z.shiftr i 8; Z.land i 0xFF;
                      Z.shiftr j 8; Z.land j 0xFF; n;
                      Z.lor (Z.shiftl (Z.b2z cv) 1) 1 ])).
Proof.
  split.
  - apply to_knx_brightness_out_of_range.
  - intros H.
    destruct (brightness_to_knx_valid b H) as [n [En [Hn Eb]]].
    exists n. repeat split; try assumption; try lia.
    intros cv i j Ec.
    apply (to_knx_blocks c b cv true i j n Ec Eb).
Qed.

(** C8 at the brightness 256 of the tests and at the brightness 102.5. *)
Lemma brightness_range_check_witness :
  to_knx (mkXYYColor None (PyInt 256)) = Raise ConversionError /\
  exists n,
    py_int (PyFloat 102.5) = Ok n /\ 0 <= n <= 255 /\
    forall cv i j,
      color_to_knx None = Ok (cv, i, j) ->
      to_knx (mkXYYColor None (PyFloat 102.5)) =
      Ok (DPTArray [ Z.shiftr i 8; Z.land i 0xFF;
                     Z.shiftr j 8; Z.land j 0xFF; n;
                     Z.lor (Z.shiftl (Z.b2z cv) 1) 1 ]).
Proof.
  split.
  - apply (proj1 (brightness_range_check None (PyInt 256))). reflexivity.
  - apply (proj2 (brightness_range_check None (PyFloat 102.5))).
    vm_compute; reflexivity.
Defined.

(** C2 on the code: a mapping with only one of the two axes builds a value
    without colour, and that value encodes; nothing is raised.  The mapping
    [{"x_axis": 1, "brightness": 1}] of the tests encodes to
    [00 00 00 00 01 01]. *)
Theorem lone_axis_is_dropped :
  (forall data,
     get data "x_axis" = PyNone \/ get data "y_axis" = PyNone ->
     XYYColorM.from_dict data = Ok (mkXYYColor None (get data "brightness"))) /\
  (v <- XYYColorM.from_dict
          [ ("x_axis"%string, PyInt 1); ("brightness"%string, PyInt 1) ] ;;
   to_knx v) = Ok (DPTArray [0; 0; 0; 0; 1; 1]).
Proof.
  split; [| vm_compute; reflexivity].
  intros data H. unfold XYYColorM.from_dict.
  replace (is_not_none (get data "x_axis") && is_not_none (get data "y_axis"))%bool
    with false; [reflexivity |].
  destruct H as [-> | ->]; cbn [is_not_none andb];
    [reflexivity | rewrite andb_false_r; reflexivity].
Qed.

(** C2 at the lone-axis mapping of the tests: it is turned into a value without
    colour. *)
Lemma lone_axis_is_dropped_witness :
  XYYColorM.from_dict
    [ ("x_axis"%string, PyInt 1); ("brightness"%string, PyInt 1) ]
  = Ok (mkXYYColor None (PyInt 1)).
Proof.
  apply (proj1 lone_axis_is_dropped
           [ ("x_axis"%string, PyInt 1); ("brightness"%string, PyInt 1) ]).
  right. reflexivity.
Defined.

Import RemoteValue.

(** C9. Routing and the cache: [process] returns [false] and leaves the
    bridge unchanged when the telegram is addressed elsewhere, when the
    written payload is not a byte array, and when decoding the payload fails;
    on a write of six octets addressed to the bridge it returns [true] and
    the cache holds the decoded value.  [process] is a function: it returns
    in every case and raises nothing. *)
Theorem process_routing (rv : RemoteValueColorXYY) (t : Telegram) :
  (String.eqb (destination_address t) (group_address rv) = false ->
   process rv t = (false, rv)) /\
  (forall p, telegram_payload t = GroupValueWrite p ->
     is_payload_kind p = false -> process rv t = (false, rv)) /\
  (forall p e, telegram_payload t = GroupValueWrite p ->
     from_knx p = Raise e -> process rv t = (false, rv)) /\
  (forall raw,
     destination_address t = group_address rv ->
     telegram_payload t = GroupValueWrite (DPTArray raw) ->
     List.length raw = 6%nat -> Forall is_byte raw ->
     exists v,
       from_knx (DPTArray raw) = Ok v /\
       process rv t = (true, mkRemoteValue (group_address rv) (Some v))).
Proof.
  unfold process. split; [| split; [| split]].
  - intros ->. reflexivity.
  - intros p -> ->.
    destruct (negb (String.eqb _ _)); reflexivity.
  - intros p e -> ->.
    destruct (negb (String.eqb _ _)); [reflexivity |].
    destruct (negb (is_payload_kind p)); reflexivity.
  - intros raw Hd -> Hlen Hall.
    rewrite Hd, String.eqb_refl. cbn [negb is_payload_kind].
    destruct (six_octets raw Hlen Hall)
      as [r0 [r1 [r2 [r3 [r4 [r5 [-> [H0 [H1 [H2 [H3 _]]]]]]]]]]].
    destruct (from_knx_octets r0 r1 r2 r3 r4 r5 H0 H1 H2 H3)
      as [dx [dy [_ [_ [_ [_ E]]]]]].
    eexists. rewrite E. split; reflexivity.
Qed.

(** C9 at the telegrams of the tests: the single-bit payload and the
    four-octet array are refused and the cache stays [None]; the write of
    [FF FF 66 66 FA 03] is applied and the cache holds the colour (1, 0.4)
    with brightness 250. *)
Lemma process_routing_witness :
  process (mkRemoteValue "1/2/3"%string None)
          (mkTelegram "1/2/3"%string (GroupValueWrite (DPTBinary 1)))
    = (false, mkRemoteValue "1/2/3"%string None) /\
  process (mkRemoteValue "1/2/3"%string None)
          (mkTelegram "1/2/3"%string
             (GroupValueWrite (DPTArray [0x64; 0x65; 0x66; 0x67])))
    = (false, mkRemoteValue "1/2/3"%string None) /\
  process (mkRemoteValue "1/2/3"%string None)
          (mkTelegram "1/2/3"%string
             (GroupValueWrite
                (DPTArray [0xFF; 0xFF; 0x66; 0x66; 0xFA; 0x03])))
    = (true,
       mkRemoteValue "1/2/3"%string
         (Some (mkXYYColor (Some (PyFloat 1, PyFloat 0x1.999999999999ap-2))
                           (PyInt 250)))).
Proof.
  split; [| split].
  - apply (proj1 (proj2 (process_routing (mkRemoteValue "1/2/3"%string None)
             (mkTelegram "1/2/3"%string (GroupValueWrite (DPTBinary 1)))))
             (DPTBinary 1)); reflexivity.
  - apply (proj1 (proj2 (proj2 (process_routing
             (mkRemoteValue "1/2/3"%string None)
             (mkTelegram "1/2/3"%string
                (GroupValueWrite (DPTArray [0x64; 0x65; 0x66; 0x67]))))))
             (DPTArray [0x64; 0x65; 0x66; 0x67]) ConversionError);
      reflexivity.
  - destruct (proj2 (proj2 (proj2 (process_routing
             (mkRemoteValue "1/2/3"%string None)
             (mkTelegram "1/2/3"%string
                (GroupValueWrite
                   (DPTArray [0xFF; 0xFF; 0x66; 0x66; 0xFA; 0x03]))))))
             [0xFF; 0xFF; 0x66; 0x66; 0xFA; 0x03]
             eq_refl eq_refl eq_refl
             ltac:(repeat constructor; lia)) as [v [E P]].
    rewrite P. vm_compute in E. injection E as <-. reflexivity.
Defined.

(** X1. Every payload that [to_knx] returns is a byte array of six octets. *)
Theorem to_knx_well_formed (v : XYYColor) (p : payload) :
  to_knx v = Ok p -> structurally_valid p = true /\ octets p.
Proof.
  destruct v as [c b]. unfold to_knx. cbn [color brightness].
  destruct (color_to_knx_cases c) as [[cv [i [j [Ec [Hi Hj]]]]] | [Ec | Ec]];
    rewrite Ec; cbn [bind except_value_type_error]; try discriminate.
  destruct (brightness_to_knx_cases b) as [[bv [n [Eb Hn]]] | Eb];
    rewrite Eb; cbn [bind except_value_type_error]; try discriminate.
  intros E. injection E as <-.
  split; [reflexivity |].
  destruct (split16_join i Hi) as [Hi1 [Hi2 _]].
  destruct (split16_join j Hj) as [Hj1 [Hj2 _]].
  cbn [octets].
  repeat (apply Forall_cons; [assumption |]).
  apply Forall_cons; [| apply Forall_nil].
  destruct cv, bv; cbv; split; discriminate.
Qed.

(** X1 at the encoding of brightness 102 without colour. *)
Lemma to_knx_well_formed_witness :
  structurally_valid (DPTArray [0; 0; 0; 0; 102; 1]) = true /\
  octets (DPTArray [0; 0; 0; 0; 102; 1]).
Proof.
  apply (to_knx_well_formed (mkXYYColor None (PyInt 102))).
  vm_compute; reflexivity.
Defined.

(** X2. A decoded value is a fixed point of the round trip: encoding what
    [from_knx] returned on six octets and decoding again gives the same
    value. *)
Theorem decoded_value_round_trips (raw : list Z) (v : XYYColor) :
  List.length raw = 6%nat -> Forall is_byte raw ->
  from_knx (DPTArray raw) = Ok v ->
  (p <- to_knx v ;; from_knx p) = Ok v.
Proof.
  intros Hlen Hall E.
  destruct (six_octets raw Hlen Hall)
    as [r0 [r1 [r2 [r3 [r4 [r5 [-> [H0 [H1 [H2 [H3 [H4 _]]]]]]]]]]]].
  pose proof (join16_range r0 r1 H0 H1) as Hi.
  pose proof (join16_range r2 r3 H2 H3) as Hj.
  destruct (axis_from_knx_facts _ Hi) as [dx [Dx [Ux Ex]]].
  destruct (axis_from_knx_facts _ Hj) as [dy [Dy [Uy Ey]]].
  rewrite from_knx_six, Dx, Dy in E.
  assert (Eb : forall bv : bool,
             brightness_to_knx (if bv then PyInt r4 else PyNone) = Ok (bv, if bv then r4 else 0)).
  { intros [|]; [apply brightness_to_knx_int, H4 | reflexivity]. }
  destruct (Z.testbit r5 1); destruct (Z.testbit r5 0) eqn:B0;
    cbn [bind] in E; injection E as <-.
  - rewrite (to_knx_blocks _ _ true _ _ _ _
               (color_to_knx_fixed16 dx dy _ _ Ux Uy Ex Ey) (Eb true)).
    cbn [bind].
    rewrite (from_knx_assembled _ _ _ true true Hi Hj), Dx, Dy. reflexivity.
  - rewrite (to_knx_blocks _ _ true _ _ _ _
               (color_to_knx_fixed16 dx dy _ _ Ux Uy Ex Ey) (Eb false)).
    cbn [bind].
    rewrite (from_knx_assembled _ _ _ true false Hi Hj), Dx, Dy. reflexivity.
  - rewrite (to_knx_blocks None _ false _ 0 0 _ eq_refl (Eb true)).
    cbn [bind].
    rewrite (from_knx_assembled 0 0 _ false true ltac:(lia) ltac:(lia)).
    reflexivity.
  - rewrite (to_knx_blocks None _ false _ 0 0 _ eq_refl (Eb false)).
    cbn [bind].
    rewrite (from_knx_assembled 0 0 _ false false ltac:(lia) ltac:(lia)).
    reflexivity.
Qed.

(** X2 at the payload of the decoding test, decoded as (0.6, 0.6) and 102. *)
Lemma decoded_value_round_trips_witness :
  (p <- to_knx (mkXYYColor
                  (Some (PyFloat 0x1.3333333333333p-1, PyFloat 0x1.3333333333333p-1))
                  (PyInt 102)) ;;
   from_knx p) =
  Ok (mkXYYColor
        (Some (PyFloat 0x1.3333333333333p-1, PyFloat 0x1.3333333333333p-1))
        (PyInt 102)).
Proof.
  apply (decoded_value_round_trips [0x99; 0x99; 0x99; 0x99; 0x66; 0x03]).
  - reflexivity.
  - repeat constructor; lia.
  - vm_compute; reflexivity.
Defined.

End Claims.

(** * Further properties of the codec *)

(** ** Steps shared by the properties below *)

Section CodecInversion.

Import DPTColorXYY.

(** Two octets joined and split again. *)
Lemma join16_split (hi lo : Z) :
  is_byte hi -> is_byte lo ->
  Z.shiftr (Z.lor (Z.shiftl hi 8) lo) 8 = hi /\
  Z.land (Z.lor (Z.shiftl hi 8) lo) 0xFF = lo.
Proof.
  unfold is_byte; intros Hhi Hlo.
  assert (Hhigh : forall k, 8 <= k -> Z.testbit lo k = false).
  { intros k Hk. apply Z.bits_above_log2; [lia |].
    assert (Z.log2 lo < 8) by (apply log2_lt_of_lt_pow2; lia). lia. }
  split; apply Z.bits_inj'; intros k Hk.
  - rewrite Z.shiftr_spec, Z.lor_spec, Z.shiftl_spec by lia.
    rewrite (Hhigh (k + 8)) by lia. rewrite orb_false_r. f_equal; lia.
  - rewrite Z.land_spec, Z.lor_spec. change 0xFF with (Z.ones 8).
    destruct (Z.ltb_spec k 8) as [Hlt | Hge].
    + rewrite Z.shiftl_spec_low, Z.ones_spec_low by lia.
      cbn [orb]. apply andb_true_r.
    + rewrite Z.ones_spec_high by lia. rewrite andb_false_r.
      symmetry; apply Hhigh; lia.
Qed.

Lemma in_range_true (lo hi : Z) (v : pyval) :
  in_range lo v hi = true <-> py_between lo v hi = Ok true.
Proof.
  unfold in_range. destruct (py_between lo v hi) as [[|] | e]; split;
    intros H; first [reflexivity | discriminate H].
Qed.

(** What a successful colour block did. *)
Lemma color_to_knx_ok_inv (c : option (pyval * pyval)) (cv : bool) (i j : Z) :
  color_to_knx c = Ok (cv, i, j) ->
  (c = None /\ cv = false /\ i = 0 /\ j = 0) \/
  (exists x y,
     c = Some (x, y) /\ cv = true /\
     py_between 0 x 1 = Ok true /\ py_between 0 y 1 = Ok true /\
     axis_to_knx x = Ok i /\ axis_to_knx y = Ok j /\
     0 <= i <= 0xFFFF /\ 0 <= j <= 0xFFFF).
Proof.
  destruct c as [[x y] |]; intros E.
  - right. exists x, y.
    destruct (py_between_cases 0 1 x) as [Hx | [Hx | Hx]];
      [| unfold color_to_knx, check_axis in E; rewrite Hx in E;
         discriminate E ..].
    destruct (py_between_cases 0 1 y) as [Hy | [Hy | Hy]];
      [| unfold color_to_knx in E; rewrite (check_axis_valid x Hx) in E;
         unfold check_axis in E; rewrite Hy in E; discriminate E ..].
    destruct (color_to_knx_valid x y Hx Hy)
      as [i' [j' [Ei [Ej [Hi [Hj E']]]]]].
    rewrite E' in E. injection E as <- <- <-.
    repeat split; try assumption; try lia.
  - left. cbn in E. injection E as <- <- <-. repeat split.
Qed.

(** What a successful brightness block did. *)
Lemma brightness_to_knx_ok_inv (b : pyval) (bv : bool) (n : Z) :
  brightness_to_knx b = Ok (bv, n) ->
  (b = PyNone /\ bv = false /\ n = 0) \/
  (py_between 0 b 255 = Ok true /\ bv = true /\
   py_int b = Ok n /\ 0 <= n <= 255).
Proof.
  intros E.
  destruct (py_between_cases 0 255 b) as [H | [H | H]].
  - right. destruct (brightness_to_knx_valid b H) as [n' [En [Hn E']]].
    rewrite E' in E. injection E as <- <-. repeat split; try assumption; lia.
  - rewrite (brightness_to_knx_out_of_range b H) in E. discriminate E.
  - left. destruct b as [| z | f]; [| discriminate H | discriminate H].
    cbn in E. injection E as <- <-. repeat split.
Qed.

(** What a successful [to_knx] did. *)
Lemma to_knx_ok_inv (v : XYYColor) (p : payload) :
  to_knx v = Ok p ->
  exists cv bv i j n,
    color_to_knx (color v) = Ok (cv, i, j) /\
    brightness_to_knx (brightness v) = Ok (bv, n) /\
    0 <= i <= 0xFFFF /\ 0 <= j <= 0xFFFF /\ 0 <= n <= 255 /\
    p = DPTArray [ Z.shiftr i 8; Z.land i 0xFF; Z.shiftr j 8; Z.land j 0xFF; n;
                   Z.lor (Z.shiftl (Z.b2z cv) 1) (Z.b2z bv) ].
Proof.
  destruct v as [c b]. unfold to_knx. cbn [color brightness].
  destruct (color_to_knx_cases c) as [[cv [i [j [Ec [Hi Hj]]]]] | [Ec | Ec]];
    rewrite Ec; cbn [bind except_value_type_error]; try discriminate.
  destruct (brightness_to_knx_cases b) as [[bv [n [Eb Hn]]] | Eb];
    rewrite Eb; cbn [bind except_value_type_error]; try discriminate.
  intros E. injection E as <-.
  exists cv, bv, i, j, n. repeat split; try reflexivity; lia.
Qed.

(** [to_knx] raises nothing but [ConversionError]. *)
Lemma to_knx_raises (v : XYYColor) (e : exn) :
  to_knx v = Raise e -> e = ConversionError.
Proof.
  destruct v as [c b]. unfold to_knx. cbn [color brightness].
  destruct (color_to_knx_cases c) as [[cv [i [j [Ec _]]]] | [Ec | Ec]];
    rewrite Ec; cbn [bind except_value_type_error];
    try (intros E; injection E as <-; reflexivity).
  destruct (brightness_to_knx_cases b) as [[bv [n [Eb _]]] | Eb];
    rewrite Eb; cbn [bind except_value_type_error]; intros E;
    [discriminate E | injection E as <-; reflexivity].
Qed.

End CodecInversion.

Section RoundTrips.

Import DPTColorXYY.

(** The flag octet keeps the two low bits of the octet it was read from. *)
Lemma flags_of_testbits (r : Z) :
  Z.lor (Z.shiftl (Z.b2z (Z.testbit r 1)) 1) (Z.b2z (Z.testbit r 0)) =
  Z.land r 3.
Proof.
  apply Z.bits_inj'; intros k Hk.
  rewrite Z.land_spec.
  assert (Hc : k = 0 \/ k = 1 \/ 2 <= k) by lia.
  destruct Hc as [-> | [-> | Hk2]].
  - destruct (Z.testbit r 1), (Z.testbit r 0); reflexivity.
  - destruct (Z.testbit r 1), (Z.testbit r 0); reflexivity.
  - change 3 with (Z.ones 2). rewrite Z.ones_spec_high by lia.
    rewrite andb_false_r.
    apply Z.bits_above_log2.
    + destruct (Z.testbit r 1), (Z.testbit r 0); cbn; lia.
    + destruct (Z.testbit r 1), (Z.testbit r 0); cbn; lia.
Qed.

(** Decoding what [to_knx] returned: the decoded axes are floats of [0, 1]
    that encode to the same 16 bits as the axes of the value. *)
Lemma round_trip_described (v : XYYColor) (p : payload) :
  to_knx v = Ok p ->
  exists cv bv i j n dx dy,
    color_to_knx (color v) = Ok (cv, i, j) /\
    brightness_to_knx (brightness v) = Ok (bv, n) /\
    0 <= i <= 0xFFFF /\ 0 <= j <= 0xFFFF /\ 0 <= n <= 255 /\
    unit_interval dx = true /\ unit_interval dy = true /\
    axis_from_knx i = Ok (PyFloat dx) /\ axis_from_knx j = Ok (PyFloat dy) /\
    axis_to_knx (PyFloat dx) = Ok i /\ axis_to_knx (PyFloat dy) = Ok j /\
    p = DPTArray [ Z.shiftr i 8; Z.land i 0xFF; Z.shiftr j 8; Z.land j 0xFF; n;
                   Z.lor (Z.shiftl (Z.b2z cv) 1) (Z.b2z bv) ] /\
    from_knx p =
    Ok (mkXYYColor (if cv then Some (PyFloat dx, PyFloat dy) else None)
                   (if bv then PyInt n else PyNone)).
Proof.
  intros E.
  destruct (to_knx_ok_inv v p E)
    as [cv [bv [i [j [n [Ec [Eb [Hi [Hj [Hn ->]]]]]]]]]].
  destruct (axis_from_knx_facts i Hi) as [dx [Dx [Ux Ex]]].
  destruct (axis_from_knx_facts j Hj) as [dy [Dy [Uy Ey]]].
  exists cv, bv, i, j, n, dx, dy.
  repeat (split; [assumption |]).
  split; [reflexivity |].
  rewrite (from_knx_assembled i j n cv bv Hi Hj), Dx, Dy.
  destruct cv; reflexivity.
Qed.

(** Encoding what [from_knx] returned on six octets gives the normal form
    of the octets. *)
Lemma to_knx_decoded (r0 r1 r2 r3 r4 r5 : Z) :
  is_byte r0 -> is_byte r1 -> is_byte r2 -> is_byte r3 -> is_byte r4 ->
  exists v,
    from_knx (DPTArray [r0; r1; r2; r3; r4; r5]) = Ok v /\
    float_color (color v) = true /\
    to_knx v = Ok (DPTArray (canonical [r0; r1; r2; r3; r4; r5])).
Proof.
  intros H0 H1 H2 H3 H4.
  pose proof (join16_range r0 r1 H0 H1) as Hi.
  pose proof (join16_range r2 r3 H2 H3) as Hj.
  destruct (axis_from_knx_facts _ Hi) as [dx [Dx [Ux Ex]]].
  destruct (axis_from_knx_facts _ Hj) as [dy [Dy [Uy Ey]]].
  destruct (join16_split r0 r1 H0 H1) as [S0 S1].
  destruct (join16_split r2 r3 H2 H3) as [S2 S3].
  assert (Eb : forall bv : bool,
             brightness_to_knx (if bv then PyInt r4 else PyNone)
             = Ok (bv, if bv then r4 else 0)).
  { intros [|]; [apply brightness_to_knx_int, H4 | reflexivity]. }
  unfold canonical. rewrite <- (flags_of_testbits r5).
  destruct (Z.testbit r5 1) eqn:B1; destruct (Z.testbit r5 0) eqn:B0;
    eexists; rewrite from_knx_six, B1, B0, ?Dx, ?Dy;
    cbn [bind]; (split; [reflexivity |]);
    (split; [cbn [color float_color]; try rewrite Ux, Uy; reflexivity |]).
  - rewrite (to_knx_blocks _ _ true _ _ _ _
               (color_to_knx_fixed16 dx dy _ _ Ux Uy Ex Ey) (Eb true)).
    rewrite S0, S1, S2, S3. reflexivity.
  - rewrite (to_knx_blocks _ _ true _ _ _ _
               (color_to_knx_fixed16 dx dy _ _ Ux Uy Ex Ey) (Eb false)).
    rewrite S0, S1, S2, S3. reflexivity.
  - rewrite (to_knx_blocks None _ false _ 0 0 _ eq_refl (Eb true)).
    reflexivity.
  - rewrite (to_knx_blocks None _ false _ 0 0 _ eq_refl (Eb false)).
    reflexivity.
Qed.

(** The normal form of six raw values decodes like the raw values. *)
Lemma from_knx_canonical (r0 r1 r2 r3 r4 r5 : Z) :
  from_knx (DPTArray (canonical [r0; r1; r2; r3; r4; r5])) =
  from_knx (DPTArray [r0; r1; r2; r3; r4; r5]).
Proof.
  unfold canonical. rewrite !from_knx_six, !testbit_land_3 by lia.
  destruct (Z.testbit r5 1), (Z.testbit r5 0); reflexivity.
Qed.

(** [from_dict] undoes [to_dict] on a value whose colour is absent or a
    pair of floats of [0, 1]. *)
Lemma from_dict_to_dict_float (v : XYYColor) :
  float_color (color v) = true ->
  XYYColorM.from_dict (XYYColorM.to_dict v) = Ok v.
Proof.
  destruct v as [c b]. cbn [color]. intros H.
  unfold XYYColorM.from_dict.
  change (get (XYYColorM.to_dict (mkXYYColor c b)) "x_axis")
    with (match c with Some (x, _) => x | None => PyNone end).
  change (get (XYYColorM.to_dict (mkXYYColor c b)) "y_axis")
    with (match c with Some (_, y) => y | None => PyNone end).
  change (get (XYYColorM.to_dict (mkXYYColor c b)) "brightness") with b.
  destruct c as [[[| zx | x] [| zy | y]] |]; try discriminate H;
    [| reflexivity].
  cbn [float_color] in H. apply andb_prop in H; destruct H as [Ux Uy].
  cbn [is_not_none andb py_float bind py_between].
  fold (unit_interval x). fold (unit_interval y).
  rewrite Ux, Uy. reflexivity.
Qed.

(** [to_knx] succeeds exactly on the encodable values. *)
Lemma to_knx_ok_iff (v : XYYColor) :
  (exists p, to_knx v = Ok p) <-> encodable v = true.
Proof.
  unfold encodable. split.
  - intros [p E].
    destruct (to_knx_ok_inv v p E) as [cv [bv [i [j [n [Ec [Eb _]]]]]]].
    apply andb_true_intro; split.
    + destruct (color_to_knx_ok_inv _ _ _ _ Ec)
        as [[-> _] | [x [y [-> [_ [Hx [Hy _]]]]]]]; [reflexivity |].
      apply andb_true_intro; split; apply in_range_true; assumption.
    + destruct (brightness_to_knx_ok_inv _ _ _ Eb) as [[-> _] | [Hb _]];
        [reflexivity |].
      apply orb_true_intro; right. apply in_range_true, Hb.
  - intros H. apply andb_prop in H; destruct H as [Hc Hb].
    destruct v as [c b]; cbn [color brightness] in *.
    assert (Ec : exists cv i j, color_to_knx c = Ok (cv, i, j)).
    { destruct c as [[x y] |]; [| exists false, 0, 0; reflexivity].
      apply andb_prop in Hc; destruct Hc as [Hx Hy].
      apply in_range_true in Hx, Hy.
      destruct (color_to_knx_valid x y Hx Hy) as [i [j [_ [_ [_ [_ E]]]]]].
      exists true, i, j; exact E. }
    assert (Eb : exists bv n, brightness_to_knx b = Ok (bv, n)).
    { apply orb_prop in Hb; destruct Hb as [Hb | Hb].
      - destruct b; [exists false, 0; reflexivity | discriminate Hb ..].
      - apply in_range_true in Hb.
        destruct (brightness_to_knx_valid b Hb) as [n [_ [_ E]]].
        exists true, n; exact E. }
    destruct Ec as [cv [i [j Ec]]]. destruct Eb as [bv [n Eb]].
    eexists. apply (to_knx_blocks c b cv bv i j n Ec Eb).
Qed.


(** [float()] on a present value: a float, or an [OverflowError] on an int
    beyond [2^53]. *)
Lemma py_float_cases (a : pyval) :
  is_not_none a = true ->
  (exists f, py_float a = Ok f) \/
  (exists z, a = PyInt z /\ 2 ^ 53 < Z.abs z /\
             py_float a = Raise OverflowError).
Proof.
  destruct a as [| z | f]; intros H; [discriminate H | | left; eexists; reflexivity].
  cbn [py_float]. unfold float_of_int.
  destruct (Z.leb_spec (Z.abs z) (2 ^ 53)) as [Hle | Hgt]; [left; eexists; reflexivity |].
  destruct (is_infinity _); [right | left; eexists; reflexivity].
  exists z. split; [reflexivity | split; [exact Hgt | reflexivity]].
Qed.

(** The four ways [from_dict] ends. *)
Lemma from_dict_cases (data : mapping) :
  ((get data "x_axis" = PyNone \/ get data "y_axis" = PyNone) /\
   XYYColorM.from_dict data = Ok (mkXYYColor None (get data "brightness"))) \/
  (exists fx fy,
     py_float (get data "x_axis") = Ok fx /\
     py_float (get data "y_axis") = Ok fy /\
     unit_interval fx = true /\ unit_interval fy = true /\
     XYYColorM.from_dict data =
     Ok (mkXYYColor (Some (PyFloat fx, PyFloat fy)) (get data "brightness"))) \/
  (exists fx fy,
     py_float (get data "x_axis") = Ok fx /\
     py_float (get data "y_axis") = Ok fy /\
     (unit_interval fx = false \/ unit_interval fy = false) /\
     XYYColorM.from_dict data = Raise ConversionError) \/
  (exists z,
     (get data "x_axis" = PyInt z \/ get data "y_axis" = PyInt z) /\
     2 ^ 53 < Z.abs z /\
     XYYColorM.from_dict data = Raise OverflowError).
Proof.
  unfold XYYColorM.from_dict.
  destruct (is_not_none (get data "x_axis")) eqn:Nx;
    [| left; split; [left; destruct (get data "x_axis");
                     [reflexivity | discriminate Nx ..] | reflexivity]].
  destruct (is_not_none (get data "y_axis")) eqn:Ny;
    [| left; split; [right; destruct (get data "y_axis");
                     [reflexivity | discriminate Ny ..] | reflexivity]].
  right. cbn [andb].
  destruct (py_float_cases _ Nx) as [[fx Ex] | [z [Hz [Hbig Ex]]]].
  - destruct (py_float_cases _ Ny) as [[fy Ey] | [z [Hz [Hbig Ey]]]].
    + rewrite Ex, Ey. cbn [bind py_between].
      fold (unit_interval fx). fold (unit_interval fy).
      destruct (unit_interval fx) eqn:Ux; cbn [negb bind].
      * destruct (unit_interval fy) eqn:Uy; cbn [negb bind].
        -- left. exists fx, fy. auto 10.
        -- right; left. exists fx, fy. auto 10.
      * right; left. exists fx, fy. auto 10.
    + right; right. exists z. rewrite Ex, Ey.
      split; [right; exact Hz |]. split; [exact Hbig | reflexivity].
  - right; right. exists z. rewrite Ex.
    split; [left; exact Hz |]. split; [exact Hbig | reflexivity].
Qed.

End RoundTrips.

(** ** Encode, decode and the mapping form together *)

Section CodecProperties.

Import DPTColorXYY.

(** X3. [to_knx] returns a payload exactly on the values whose present
    fields pass their range tests, and raises nothing but
    [ConversionError]. *)
Theorem to_knx_succeeds_iff (v : XYYColor) :
  ((exists p, to_knx v = Ok p) <-> encodable v = true) /\
  (forall e, to_knx v = Raise e -> e = ConversionError).
Proof.
  split; [exact (to_knx_ok_iff v) | exact (to_knx_raises v)].
Qed.

(** X4. Decoding never fails on a payload that [to_knx] returned, and the
    decoded value has the fields of the encoded one: the colour is present
    exactly when it was, each decoded axis is the decoding of the 16 bits
    the axis was encoded to, and the brightness is [int(brightness)]. *)
Theorem from_knx_of_to_knx (v : XYYColor) (p : payload) :
  to_knx v = Ok p ->
  exists v',
    from_knx p = Ok v' /\
    (color v' = None <-> color v = None) /\
    (brightness v' = PyNone <-> brightness v = PyNone) /\
    (forall n, py_int (brightness v) = Ok n -> brightness v' = PyInt n) /\
    (forall x y, color v = Some (x, y) ->
       exists i j dx dy,
         axis_to_knx x = Ok i /\ axis_to_knx y = Ok j /\
         axis_from_knx i = Ok dx /\ axis_from_knx j = Ok dy /\
         color v' = Some (dx, dy)).
Proof.
  intros E.
  destruct (round_trip_described v p E)
    as [cv [bv [i [j [n [dx [dy
        [Ec [Eb [Hi [Hj [Hn [Ux [Uy [Dx [Dy [Ex [Ey [_ F]]]]]]]]]]]]]]]]]]].
  eexists; split; [exact F |]. cbn [color brightness].
  destruct (color_to_knx_ok_inv _ _ _ _ Ec)
    as [[Hc [-> _]] | [x [y [Hc [-> [_ [_ [Ax [Ay _]]]]]]]]];
    destruct (brightness_to_knx_ok_inv _ _ _ Eb)
      as [[Hb [-> _]] | [Hb [-> [Hint _]]]];
    rewrite Hc; (split; [split; intros H; first [reflexivity | discriminate H] |]).
  - rewrite Hb. split; [split; reflexivity |].
    split; [intros m Hm; discriminate Hm | intros ? ? H; discriminate H].
  - split.
    + split; intros H; [| rewrite H in Hb]; discriminate.
    + split; [intros m Hm; rewrite Hint in Hm; injection Hm as <-; reflexivity
             | intros ? ? H; discriminate H].
  - rewrite Hb. split; [split; reflexivity |].
    split; [intros m Hm; discriminate Hm |].
    intros x' y' H. injection H as <- <-.
    exists i, j, (PyFloat dx), (PyFloat dy). repeat split; assumption.
  - split.
    + split; intros H; [| rewrite H in Hb]; discriminate.
    + split; [intros m Hm; rewrite Hint in Hm; injection Hm as <-; reflexivity |].
      intros x' y' H. injection H as <- <-.
      exists i, j, (PyFloat dx), (PyFloat dy). repeat split; assumption.
Qed.

(** X4 at the colour (0.5, 0.5) with the float brightness 102.5. *)
Lemma from_knx_of_to_knx_witness :
  exists v',
    from_knx (DPTArray [0x80; 0x00; 0x80; 0x00; 102; 3]) = Ok v' /\
    (color v' = None <-> Some (PyFloat 0.5, PyFloat 0.5) = None) /\
    (brightness v' = PyNone <-> PyFloat 102.5 = PyNone) /\
    (forall n, py_int (PyFloat 102.5) = Ok n -> brightness v' = PyInt n) /\
    (forall x y, Some (PyFloat 0.5, PyFloat 0.5) = Some (x, y) ->
       exists i j dx dy,
         axis_to_knx x = Ok i /\ axis_to_knx y = Ok j /\
         axis_from_knx i = Ok dx /\ axis_from_knx j = Ok dy /\
         color v' = Some (dx, dy)).
Proof.
  apply (from_knx_of_to_knx
           (mkXYYColor (Some (PyFloat 0.5, PyFloat 0.5)) (PyFloat 102.5))).
  vm_compute; reflexivity.
Defined.

(** X5. The payload is stable: encoding the value decoded from a payload
    that [to_knx] returned gives that payload again. *)
Theorem to_knx_stable (v v' : XYYColor) (p : payload) :
  to_knx v = Ok p -> from_knx p = Ok v' -> to_knx v' = Ok p.
Proof.
  intros E F.
  destruct (round_trip_described v p E)
    as [cv [bv [i [j [n [dx [dy
        [Ec [Eb [Hi [Hj [Hn [Ux [Uy [Dx [Dy [Ex [Ey [-> F']]]]]]]]]]]]]]]]]]].
  rewrite F' in F. injection F as <-.
  assert (Ec' : color_to_knx (if cv then Some (PyFloat dx, PyFloat dy) else None)
                = Ok (cv, i, j)).
  { destruct (color_to_knx_ok_inv _ _ _ _ Ec)
      as [[_ [-> [-> ->]]] | [_ [_ [_ [-> _]]]]];
      [reflexivity | apply color_to_knx_fixed16; assumption]. }
  assert (Eb' : brightness_to_knx (if bv then PyInt n else PyNone) = Ok (bv, n)).
  { destruct (brightness_to_knx_ok_inv _ _ _ Eb) as [[_ [-> ->]] | [_ [-> _]]];
      [reflexivity | apply brightness_to_knx_int, Hn]. }
  apply (to_knx_blocks _ _ cv bv i j n Ec' Eb').
Qed.

(** X5 at the colour (0.5, 0.5) without brightness: it is decoded as
    (0.50001, 0.50001), which encodes to the same octets. *)
Lemma to_knx_stable_witness :
  to_knx (mkXYYColor
            (Some (PyFloat 0x1.00014f8b588e3p-1, PyFloat 0x1.00014f8b588e3p-1))
            PyNone)
  = Ok (DPTArray [0x80; 0x00; 0x80; 0x00; 0x00; 0x02]).
Proof.
  apply (to_knx_stable (mkXYYColor (Some (PyFloat 0.5, PyFloat 0.5)) PyNone));
    vm_compute; reflexivity.
Defined.

(** X6. Decoding six octets and encoding the value gives the normal form of
    the octets: the fields marked valid keep their octets, the others become
    zero, and only the two validity bits of the flag octet remain.  A payload
    in normal form is reproduced octet for octet. *)
Theorem to_knx_of_from_knx (raw : list Z) :
  List.length raw = 6%nat -> Forall is_byte raw ->
  exists v,
    from_knx (DPTArray raw) = Ok v /\
    to_knx v = Ok (DPTArray (canonical raw)) /\
    (canonical raw = raw -> to_knx v = Ok (DPTArray raw)).
Proof.
  intros Hlen Hall.
  destruct (six_octets raw Hlen Hall)
    as [r0 [r1 [r2 [r3 [r4 [r5 [-> [H0 [H1 [H2 [H3 [H4 _]]]]]]]]]]]].
  destruct (to_knx_decoded r0 r1 r2 r3 r4 r5 H0 H1 H2 H3 H4) as [v [F [_ E]]].
  exists v. split; [exact F |]. split; [exact E |].
  intros Hc. rewrite Hc in E. exact E.
Qed.

(** X6 at a payload with reserved bits set and the colour marked invalid:
    it is re-encoded with zero colour octets and the flag octet 1. *)
Lemma to_knx_of_from_knx_witness :
  exists v,
    from_knx (DPTArray [0x12; 0x34; 0x56; 0x78; 0x66; 0xFD]) = Ok v /\
    to_knx v = Ok (DPTArray [0; 0; 0; 0; 0x66; 1]) /\
    (canonical [0x12; 0x34; 0x56; 0x78; 0x66; 0xFD]
     = [0x12; 0x34; 0x56; 0x78; 0x66; 0xFD] ->
     to_knx v = Ok (DPTArray [0x12; 0x34; 0x56; 0x78; 0x66; 0xFD])).
Proof.
  apply (to_knx_of_from_knx [0x12; 0x34; 0x56; 0x78; 0x66; 0xFD]).
  - reflexivity.
  - repeat constructor; lia.
Defined.

(** X7. [from_dict] undoes [to_dict]: on a value whose colour is absent or
    a pair of floats of [0, 1], whatever its brightness, the mapping built
    by [to_dict] is read back as the same value. *)
Theorem from_dict_to_dict (v : XYYColor) :
  float_color (color v) = true ->
  XYYColorM.from_dict (XYYColorM.to_dict v) = Ok v.
Proof. exact (from_dict_to_dict_float v). Qed.

(** X7 at the colour (1, 0.5) with the out-of-range brightness 256, which
    [from_dict] does not look at. *)
Lemma from_dict_to_dict_witness :
  XYYColorM.from_dict
    (XYYColorM.to_dict (mkXYYColor (Some (PyFloat 1, PyFloat 0.5)) (PyInt 256)))
  = Ok (mkXYYColor (Some (PyFloat 1, PyFloat 0.5)) (PyInt 256)).
Proof.
  apply (from_dict_to_dict
           (mkXYYColor (Some (PyFloat 1, PyFloat 0.5)) (PyInt 256))).
  vm_compute; reflexivity.
Defined.

(** X8. The mapping form of a decoded value comes back: for six octets
    decoded to [v], reading [to_dict v] with [from_dict], encoding and
    decoding again gives [v]. *)
Theorem decoded_mapping_round_trips (raw : list Z) (v : XYYColor) :
  List.length raw = 6%nat -> Forall is_byte raw ->
  from_knx (DPTArray raw) = Ok v ->
  (v1 <- XYYColorM.from_dict (XYYColorM.to_dict v) ;;
   p <- to_knx v1 ;;
   from_knx p) = Ok v.
Proof.
  intros Hlen Hall F.
  destruct (six_octets raw Hlen Hall)
    as [r0 [r1 [r2 [r3 [r4 [r5 [-> [H0 [H1 [H2 [H3 [H4 _]]]]]]]]]]]].
  destruct (to_knx_decoded r0 r1 r2 r3 r4 r5 H0 H1 H2 H3 H4)
    as [v' [F' [Hc E]]].
  rewrite F in F'. injection F' as <-.
  rewrite (from_dict_to_dict_float v Hc). cbn [bind].
  rewrite E. cbn [bind].
  rewrite from_knx_canonical. exact F.
Qed.

(** X8 at the payload of the decoding test. *)
Lemma decoded_mapping_round_trips_witness :
  (v1 <- XYYColorM.from_dict
           (XYYColorM.to_dict
              (mkXYYColor
                 (Some (PyFloat 0x1.3333333333333p-1, PyFloat 0x1.3333333333333p-1))
                 (PyInt 102))) ;;
   p <- to_knx v1 ;;
   from_knx p) =
  Ok (mkXYYColor
        (Some (PyFloat 0x1.3333333333333p-1, PyFloat 0x1.3333333333333p-1))
        (PyInt 102)).
Proof.
  apply (decoded_mapping_round_trips [0x99; 0x99; 0x99; 0x99; 0x66; 0x03]).
  - reflexivity.
  - repeat constructor; lia.
  - vm_compute; reflexivity.
Defined.

(** X9. What [from_dict] builds: the colour is absent exactly when one of
    the two axes is missing from the mapping (or [None]), a present colour is
    a pair of floats of [0, 1] even when the mapping held ints, and the
    brightness is the mapping's brightness, unchecked. *)
Theorem from_dict_builds_float_color (data : mapping) (v : XYYColor) :
  XYYColorM.from_dict data = Ok v ->
  float_color (color v) = true /\
  brightness v = get data "brightness" /\
  (color v = None <->
   get data "x_axis" = PyNone \/ get data "y_axis" = PyNone).
Proof.
  intros E.
  destruct (from_dict_cases data)
    as [[Hn F] | [[fx [fy [Ex [Ey [Ux [Uy F]]]]]]
                 | [[fx [fy [_ [_ [_ F]]]]] | [z [_ [_ F]]]]]];
    rewrite F in E; try discriminate E; injection E as <-;
    cbn [color brightness float_color].
  - repeat split; [intros _; exact Hn].
  - rewrite Ux, Uy. split; [reflexivity |]. split; [reflexivity |].
    split; [intros H; discriminate H |].
    intros [H | H]; [rewrite H in Ex; discriminate Ex
                    | rewrite H in Ey; discriminate Ey].
Qed.

(** X9 at a mapping with int axes and a brightness out of range. *)
Lemma from_dict_builds_float_color_witness :
  float_color (Some (PyFloat 1, PyFloat 0)) = true /\
  PyInt 256 = get [ ("x_axis"%string, PyInt 1); ("y_axis"%string, PyInt 0);
                    ("brightness"%string, PyInt 256) ] "brightness" /\
  (Some (PyFloat 1, PyFloat 0) = None <->
   get [ ("x_axis"%string, PyInt 1); ("y_axis"%string, PyInt 0);
         ("brightness"%string, PyInt 256) ] "x_axis" = PyNone \/
   get [ ("x_axis"%string, PyInt 1); ("y_axis"%string, PyInt 0);
         ("brightness"%string, PyInt 256) ] "y_axis" = PyNone).
Proof.
  apply (from_dict_builds_float_color
           [ ("x_axis"%string, PyInt 1); ("y_axis"%string, PyInt 0);
             ("brightness"%string, PyInt 256) ]
           (mkXYYColor (Some (PyFloat 1, PyFloat 0)) (PyInt 256))).
  vm_compute; reflexivity.
Defined.

(** X10. After [from_dict], encoding can fail on the brightness only: the
    value built from a mapping encodes exactly when the mapping's brightness
    is missing (or [None]) or passes [0 <= brightness <= 255]. *)
Theorem to_knx_after_from_dict (data : mapping) (v : XYYColor) :
  XYYColorM.from_dict data = Ok v ->
  ((exists p, to_knx v = Ok p) <->
   (negb (is_not_none (get data "brightness"))
    || in_range 0 (get data "brightness") 255)%bool = true).
Proof.
  intros E.
  destruct (from_dict_cases data)
    as [[Hn F] | [[fx [fy [Ex [Ey [Ux [Uy F]]]]]]
                 | [[fx [fy [_ [_ [_ F]]]]] | [z [_ [_ F]]]]]];
    rewrite F in E; try discriminate E; injection E as <-;
    rewrite to_knx_ok_iff; unfold encodable; cbn [color brightness].
  - reflexivity.
  - unfold in_range at 1 2. cbn [py_between].
    fold (unit_interval fx). fold (unit_interval fy).
    rewrite Ux, Uy. reflexivity.
Qed.

(** X10 at the mapping of the tests with brightness 256: the value is built
    and does not encode. *)
Lemma to_knx_after_from_dict_witness :
  (exists p,
     to_knx (mkXYYColor (Some (PyFloat 0x1.3333333333333p-2, PyFloat 0.5))
                        (PyInt 256)) = Ok p) <->
  (negb (is_not_none
           (get [ ("x_axis"%string, PyFloat 0x1.3333333333333p-2);
                  ("y_axis"%string, PyFloat 0.5);
                  ("brightness"%string, PyInt 256) ] "brightness"))
   || in_range 0
        (get [ ("x_axis"%string, PyFloat 0x1.3333333333333p-2);
               ("y_axis"%string, PyFloat 0.5);
               ("brightness"%string, PyInt 256) ] "brightness") 255)%bool
  = true.
Proof.
  apply (to_knx_after_from_dict
           [ ("x_axis"%string, PyFloat 0x1.3333333333333p-2);
             ("y_axis"%string, PyFloat 0.5);
             ("brightness"%string, PyInt 256) ]).
  vm_compute; reflexivity.
Defined.



End CodecProperties.

(** ** The order of the decoded fractions *)

Section DecodeOrder.

Import DPTColorXYY.

Lemma finite_ltb (m m' : positive) (e e' : Z) :
  SFltb (S754_finite false m e) (S754_finite false m' e') = true <->
  e < e' \/ (e = e' /\ Zpos m < Zpos m').
Proof.
  unfold SFltb, SFcompare.
  change (Pos.compare_cont Eq m m') with (Pos.compare m m').
  destruct (Z.compare_spec e e') as [He | He | He];
    [destruct (Pos.compare_spec m m') as [Hm | Hm | Hm] | |];
    split; intros H; try discriminate H; try reflexivity; try lia.
Qed.

(** [<] is transitive on the floats of [0, 1]. *)
Lemma ltb_unit_trans (a b c : float) :
  unit_interval a = true -> unit_interval b = true -> unit_interval c = true ->
  (a <? b)%float = true -> (b <? c)%float = true -> (a <? c)%float = true.
Proof.
  intros Ua Ub Uc. rewrite !FloatAxioms.ltb_spec.
  destruct (between_cases a 1 _ _ Prim2SF_1 Ua)
    as [[sa ->] | [ma [ea [-> _]]]];
    destruct (between_cases b 1 _ _ Prim2SF_1 Ub)
      as [[sb ->] | [mb [eb [-> _]]]];
    destruct (between_cases c 1 _ _ Prim2SF_1 Uc)
      as [[sc ->] | [mc [ec [-> _]]]];
    try (intros H; discriminate H); try (intros _ H; discriminate H).
  - intros _ _. reflexivity.
  - rewrite !finite_ltb. lia.
Qed.

Lemma decode_step_check_all :
  forall_from (Z.to_nat 65535) 0 decode_step_check = true.
Proof. vm_compute. reflexivity. Qed.

Lemma decode_step (i : Z) (a b : float) :
  0 <= i < 0xFFFF ->
  axis_from_knx i = Ok (PyFloat a) -> axis_from_knx (i + 1) = Ok (PyFloat b) ->
  (a <? b)%float = true.
Proof.
  intros Hi Ea Eb.
  assert (H : decode_step_check i = true).
  { apply (forall_from_sound decode_step_check _ 0 decode_step_check_all).
    rewrite Z2Nat.id; lia. }
  unfold decode_step_check in H. rewrite Ea, Eb in H. exact H.
Qed.

Lemma decode_increasing_from (n : nat) :
  forall r a b,
    0 <= r -> r + Z.of_nat n + 1 <= 0xFFFF ->
    axis_from_knx r = Ok (PyFloat a) ->
    axis_from_knx (r + Z.of_nat n + 1) = Ok (PyFloat b) ->
    (a <? b)%float = true.
Proof.
  induction n as [| n IH]; intros r a b Hr Hn Ea Eb.
  - cbn [Z.of_nat] in *. rewrite Z.add_0_r in Eb.
    apply (decode_step r a b); [lia | exact Ea | exact Eb].
  - rewrite Nat2Z.inj_succ in *.
    destruct (axis_from_knx_facts (r + Z.of_nat n + 1) ltac:(lia))
      as [c [Ec [Uc _]]].
    destruct (axis_from_knx_facts r ltac:(lia)) as [a' [Ea' [Ua _]]].
    rewrite Ea in Ea'; injection Ea' as <-.
    destruct (axis_from_knx_facts (r + Z.succ (Z.of_nat n) + 1) ltac:(lia))
      as [b' [Eb' [Ub _]]].
    rewrite Eb in Eb'; injection Eb' as <-.
    apply (ltb_unit_trans a c b Ua Uc Ub).
    + apply (IH r a c); [lia | lia | exact Ea | exact Ec].
    + apply (decode_step (r + Z.of_nat n + 1) c b); [lia | exact Ec |].
      replace (r + Z.of_nat n + 1 + 1) with (r + Z.succ (Z.of_nat n) + 1)
        by lia.
      exact Eb.
Qed.

(** X12. Decoding keeps the order of the raw values: of two 16-bit values
    the larger one decodes to the larger float, so the 5-digit rounding never
    reverses or merges neighbours. *)
Theorem decode_increasing (r1 r2 : Z) (d1 d2 : float) :
  0 <= r1 -> r1 < r2 -> r2 <= 0xFFFF ->
  axis_from_knx r1 = Ok (PyFloat d1) ->
  axis_from_knx r2 = Ok (PyFloat d2) ->
  (d1 <? d2)%float = true.
Proof.
  intros H1 H12 H2 E1 E2.
  apply (decode_increasing_from (Z.to_nat (r2 - r1 - 1)) r1 d1 d2);
    rewrite ?Z2Nat.id by lia; try lia; try assumption.
  replace (r1 + (r2 - r1 - 1) + 1) with r2 by lia. exact E2.
Qed.

(** X12 at the raw values 0x6666 and 0x9999: 0.4 is below 0.6. *)
Lemma decode_increasing_witness :
  (0x1.999999999999ap-2 <? 0x1.3333333333333p-1)%float = true.
Proof.
  apply (decode_increasing 0x6666 0x9999);
    first [lia | vm_compute; reflexivity].
Defined.

End DecodeOrder.
